(** * AnaliNet: equipment communication and result ingestion

    A shallow embedding of the equipment layer of the backend
    ([app/models/equipment.py], [app/services/equipment_interface.py],
    [app/services/result_processor.py], [app/services/result_handler.py])
    and the properties of its specification that can be stated over it.

    Python values are modelled as the code uses them: [str] as [string]
    (one [ascii] per character), [int] as [Z], a [dict] used as a mapping as
    a [gmap], an exception as a value of [exn] carried by [Result]. *)

From Stdlib Require Import ZArith Ascii String List Lia.
From stdpp Require Import base option list gmap strings pretty.

Local Open Scope string_scope.
Local Open Scope list_scope.

(** ** Exceptions and fallible computations *)

(** The exception classes the modelled code raises or lets through.  The
    payload is what [str(e)] prints. *)
Inductive exn : Type :=
  | ValueError (msg : string)
  | KeyError (msg : string)
  | IndexError (msg : string)
  | AttributeError (msg : string)
  | NameError (msg : string)
  | OSError (msg : string)
  | ParseException (msg : string)
  | HTTPException (status_code : Z) (detail : string).

Definition str_exn (e : exn) : string :=
  match e with
  | ValueError m | IndexError m | AttributeError m | NameError m
  | OSError m | ParseException m => m
  | KeyError m => "'" +:+ m +:+ "'"
  | HTTPException c d => d
  end.

Inductive Result (A : Type) : Type :=
  | Ok (a : A)
  | Raise (e : exn).
Arguments Ok {A} a.
Arguments Raise {A} e.

(** Sequencing stops at the first exception; [x ← r; k] is stdpp's notation
    for it. *)
#[global] Instance Result_ret : MRet Result := fun A a => Ok a.
#[global] Instance Result_bind : MBind Result := fun A B k r =>
  match r with
  | Ok a => k a
  | Raise e => Raise e
  end.

(** [try: body except Exception as e: raise h(e)] *)
Definition reraise {A} (h : exn -> exn) (r : Result A) : Result A :=
  match r with
  | Ok a => Ok a
  | Raise e => Raise (h e)
  end.

(** A comprehension or [for] loop whose body may raise: the results in
    order, or the first exception. *)
Fixpoint mapM {A B} (f : A -> Result B) (l : list A) : Result (list B) :=
  match l with
  | [] => Ok []
  | a :: rest => b ← f a; bs ← mapM f rest; Ok (b :: bs)
  end.

(** ** Python string operations *)

Module PyStr.

Definition STX : ascii := "002"%char.
Definition ETX : ascii := "003"%char.
Definition LF : ascii := "010"%char.
Definition CR : ascii := "013"%char.

Definition chr (c : ascii) : string := String c "".

Definition mem (c : ascii) (chars : list ascii) : bool :=
  existsb (Ascii.eqb c) chars.

(** [s.lstrip(chars)] *)
Fixpoint lstrip (chars : list ascii) (s : string) : string :=
  match s with
  | "" => ""
  | String c r => if mem c chars then lstrip chars r else s
  end.

(** [s.rstrip(chars)]: a character stays when something after it stays. *)
Fixpoint rstrip (chars : list ascii) (s : string) : string :=
  match s with
  | "" => ""
  | String c r =>
      match rstrip chars r with
      | "" => if mem c chars then "" else chr c
      | r' => String c r'
      end
  end.

(** [s.strip(chars)] *)
Definition strip (chars : list ascii) (s : string) : string :=
  rstrip chars (lstrip chars s).

(** [s.split(sep)] for a one-character separator: never the empty list,
    [''.split(sep) == ['']]. *)
Fixpoint split (sep : ascii) (s : string) : list string :=
  match s with
  | "" => [""]
  | String c r =>
      if Ascii.eqb c sep then "" :: split sep r
      else match split sep r with
           | h :: t => String c h :: t
           | [] => [chr c]
           end
  end.

(** [sep.join(parts)] *)
Fixpoint join (sep : string) (parts : list string) : string :=
  match parts with
  | [] => ""
  | [p] => p
  | p :: rest => p +:+ sep +:+ join sep rest
  end.

(** [c in s] for a character *)
Fixpoint contains (c : ascii) (s : string) : bool :=
  match s with
  | "" => false
  | String d r => Ascii.eqb c d || contains c r
  end.

(** [l[i]] on a list, for the non-negative indices the code uses. *)
Definition index {A} (l : list A) (i : nat) : Result A :=
  match l !! i with
  | Some a => Ok a
  | None => Raise (IndexError "list index out of range")
  end.

(** [s[i]] on a string: the one-character string at [i]. *)
Definition char_at (s : string) (i : nat) : Result string :=
  match String.get i s with
  | Some c => Ok (chr c)
  | None => Raise (IndexError "string index out of range")
  end.

End PyStr.

(** ** Enumerations of [app/models/equipment.py] *)

Inductive ProtocolType : Type :=
  | HL7 | ASTM | DICOM | POCT1_A | LIS2_A2 | MODBUS | IHE_PCD | HL7_FHIR
  | ISO_11073 | PROPRIETARY.

Inductive ConnectionType : Type :=
  | NETWORK | DB25 | USB | RS232 | RS485 | BLUETOOTH | ETHERNET | WIFI.

Inductive CommunicationType : Type :=
  | UNIDIRECTIONAL | BIDIRECTIONAL | BIDIRECTIONAL_WITH_ACK.

#[global] Instance ProtocolType_eq_dec : EqDecision ProtocolType.
Proof. solve_decision. Defined.
#[global] Instance ConnectionType_eq_dec : EqDecision ConnectionType.
Proof. solve_decision. Defined.
#[global] Instance CommunicationType_eq_dec : EqDecision CommunicationType.
Proof. solve_decision. Defined.

(** The members are [str] enums; these are their values. *)
Definition ProtocolType_value (p : ProtocolType) : string :=
  match p with
  | HL7 => "HL7" | ASTM => "ASTM" | DICOM => "DICOM" | POCT1_A => "POCT1-A"
  | LIS2_A2 => "LIS2-A2" | MODBUS => "MODBUS" | IHE_PCD => "IHE-PCD"
  | HL7_FHIR => "HL7-FHIR" | ISO_11073 => "ISO-11073"
  | PROPRIETARY => "PROPRIETARY"
  end.

Definition ConnectionType_value (c : ConnectionType) : string :=
  match c with
  | NETWORK => "NETWORK" | DB25 => "DB25" | USB => "USB" | RS232 => "RS232"
  | RS485 => "RS485" | BLUETOOTH => "BLUETOOTH" | ETHERNET => "ETHERNET"
  | WIFI => "WIFI"
  end.

(** The columns of [Equipment] that the services read. *)
Record Equipment : Type := {
  eq_id : Z;
  eq_protocol : ProtocolType;
  eq_connection_type : ConnectionType;
  eq_communication_type : CommunicationType;
  eq_result_endpoint : option string;
  eq_polling_interval : option Z
}.

(** ** The canonical decoded message

    [process_result] returns a dict with the keys [message_id],
    [message_datetime], [patient_id], [patient_name] and [results]; each
    result is a dict.  The HL7 codec fills seven keys, the ASTM codec leaves
    [test_name] out and the FHIR codec leaves [flags] out: an absent key is
    [None] here. *)
Record ResultLine : Type := {
  test_code : string;
  test_name : option string;
  value : string;
  units : string;
  reference_range : string;
  flags : option string;
  status : string
}.

Record Processed : Type := {
  message_id : string;
  message_datetime : string;
  patient_id : string;
  patient_name : string;
  results : list ResultLine
}.

(** A reading of [datetime.now()]: as [isoformat()] and as
    [strftime('%Y%m%d%H%M%S')]. *)
Record Clock : Type := {
  now_iso : string;
  now_compact : string
}.

(** What [send_acknowledgment] hands back.  It is annotated [-> bool], but
    the HL7 and ASTM codecs return the acknowledgement text itself. *)
Inductive AckReturn : Type :=
  | RetBool (b : bool)
  | RetStr (s : string).

(** ** The ASTM codec ([ASTMResultProcessor]) *)

Module ASTMResultProcessor.
Import PyStr.

Record Header : Type := { sender : string; header_message_id : string }.
Record Patient : Type := { id : string; name : string }.

(** The three locals of the loop: [header], [patient], [results]. *)
Record Acc : Type := {
  header : option Header;
  patient : option Patient;
  acc_results : list ResultLine
}.

Definition init : Acc :=
  {| header := None; patient := None; acc_results := [] |}.

(** [fields[i] if len(fields) > i else ''] *)
Definition field_or_empty (fields : list string) (i : nat) : Result string :=
  if decide (i < length fields) then index fields i else Ok "".

Definition header_record (fields : list string) : Result Header :=
  s ← field_or_empty fields 4;
  m ← field_or_empty fields 5;
  Ok {| sender := s; header_message_id := m |}.

Definition patient_record (fields : list string) : Result Patient :=
  i ← field_or_empty fields 3;
  n ← field_or_empty fields 4;
  Ok {| id := i; name := n |}.

Definition result_record (fields : list string) : Result ResultLine :=
  c ← field_or_empty fields 2;
  v ← field_or_empty fields 3;
  u ← field_or_empty fields 4;
  r ← field_or_empty fields 5;
  f ← field_or_empty fields 6;
  s ← field_or_empty fields 8;
  Ok {| test_code := c; test_name := None; value := v; units := u;
        reference_range := r; flags := Some f; status := s |}.

(** One turn of [for record in records]. *)
Definition step (acc : Acc) (record : string) : Result Acc :=
  if decide (record = "") then Ok acc
  else
    record_type ← char_at record 0;
    let fields := split "|" record in
    if decide (record_type = "H") then
      h ← header_record fields;
      Ok {| header := Some h; patient := patient acc;
            acc_results := acc_results acc |}
    else if decide (record_type = "P") then
      p ← patient_record fields;
      Ok {| header := header acc; patient := Some p;
            acc_results := acc_results acc |}
    else if decide (record_type = "R") then
      r ← result_record fields;
      Ok {| header := header acc; patient := patient acc;
            acc_results := acc_results acc ++ [r] |}
    else Ok acc.

Fixpoint loop (acc : Acc) (records : list string) : Result Acc :=
  match records with
  | [] => Ok acc
  | record :: rest => acc' ← step acc record; loop acc' rest
  end.

Definition finish (clk : Clock) (acc : Acc) : Processed :=
  {| message_id :=
       match header acc with Some h => header_message_id h | None => "" end;
     message_datetime := now_iso clk;
     patient_id := match patient acc with Some p => id p | None => "" end;
     patient_name :=
       match patient acc with Some p => name p | None => "" end;
     results := acc_results acc |}.

Definition wrap (e : exn) : exn :=
  HTTPException 400 ("Error processing ASTM message: " +:+ str_exn e).

Definition process_result (clk : Clock) (raw_data : string)
  : Result Processed :=
  reraise wrap (
    let data := strip [STX; ETX; CR; LF] raw_data in
    let records := split CR data in
    acc ← loop init records;
    Ok (finish clk acc)).

Definition send_acknowledgment (communication_type : CommunicationType)
    (message_id : string) : AckReturn :=
  if decide (communication_type <> BIDIRECTIONAL_WITH_ACK) then RetBool true
  else
    RetStr (chr STX +:+ "H|\^&|||LIS|LAB||" +:+ message_id +:+ "||P|1"
            +:+ chr CR +:+ chr ETX +:+ chr CR +:+ chr LF).

End ASTMResultProcessor.

(** ** The [hl7] package

    [result_processor.py] parses HL7 with [hl7.parse] of the python-hl7
    package, which is a dependency and not part of the repository.  This
    module follows that package as of its releases 0.3 and 0.4, the ones
    that run on Python 3, which the [async] code of the services needs.  A
    parsed message is a tree of containers, each a Python list that
    remembers its separator; from the top: message, segment, field,
    repetition, component, with plain strings as leaves.  A component is
    thus reached as [segment[field][repetition][component]], and the header
    segment counts its separator characters as fields 1 and 2, so that the
    control id of a message is [msh[10]]. *)

Module Hl7.
Import PyStr.

#[local] Set Warnings "-register-all".
Inductive node : Type :=
  | Leaf (s : string)
  | Cont (sep : string) (items : list node).

(** [str(x)]: a container joins its items with its separator. *)
Fixpoint str (n : node) : string :=
  match n with
  | Leaf s => s
  | Cont sep items => join sep (map str items)
  end.

(** Truth value in [x if x else '']: a non-empty string, a non-empty
    list. *)
Definition truthy (n : node) : bool :=
  match n with
  | Leaf s => negb (String.eqb s "")
  | Cont _ items => match items with [] => false | _ => true end
  end.

(** [x[i]] *)
Definition getitem (n : node) (i : nat) : Result node :=
  match n with
  | Leaf s => c ← char_at s i; Ok (Leaf c)
  | Cont _ items => index items i
  end.

(** [x == 'ID'] against a string: a list never equals a string. *)
Definition eq_str (n : node) (s : string) : bool :=
  match n with
  | Leaf t => String.eqb t s
  | Cont _ _ => false
  end.

(** [plan.applies(text)]: the separator of this level or of a level below
    occurs in the text. *)
Definition applies (seps : list ascii) (text : string) : bool :=
  existsb (fun c => contains c text) seps.

(** [_split] below the segment level; [seps] holds the separators of this
    level and of the levels below it.  With no level left the text is a
    leaf; a text holding none of the separators is wrapped as it is. *)
Fixpoint split_below (seps : list ascii) (text : string) : node :=
  match seps with
  | [] => Leaf text
  | sep :: rest =>
      if applies seps text
      then Cont (chr sep) (map (split_below rest) (split sep text))
      else Cont (chr sep) [Leaf text]
  end.

Definition prefix3 (text : string) : string := substring 0 3 text.

Definition is_header_id (s : string) : bool :=
  String.eqb s "MSH" || String.eqb s "FHS" || String.eqb s "BHS".

(** [text.find(c, start)] *)
Fixpoint find_from (c : ascii) (start : nat) (text : string) : option nat :=
  match text with
  | "" => None
  | String d r =>
      match start with
      | 0 => if Ascii.eqb c d then Some 0
             else option_map S (find_from c 0 r)
      | S k => option_map S (find_from c k r)
      end
  end.

(** [text[a:b]] where [b] is the result of [find]: [-1] when nothing was
    found, which as a slice bound means "all but the last character". *)
Definition slice_to_find (a : nat) (b : option nat) (text : string) : string :=
  match b with
  | Some b => substring a (b - a) text
  | None => substring a (String.length text - 1 - a) text
  end.

(** [text[b + 1:]] for the same [b]: the whole text when nothing was
    found. *)
Definition slice_after_find (b : option nat) (text : string) : string :=
  match b with
  | Some b => substring (S b) (String.length text - S b) text
  | None => text
  end.

(** [_split] at the segment level.  The header segment keeps its
    separator characters as fields 1 and 2. *)
Definition split_segment (seps : list ascii) (text : string) : Result node :=
  match seps with
  | [] => Ok (Leaf text)
  | sep :: rest =>
      if negb (applies seps text) then Ok (Cont (chr sep) [Leaf text])
      else if is_header_id (prefix3 text) then
        sep0 ← char_at text 3;
        match sep0 with
        | String c0 _ =>
            let off := find_from c0 4 text in
            let seps' := slice_to_find 4 off text in
            let text' := slice_after_find off text in
            let fsep := match rest with r :: _ => chr r | [] => "" end in
            let data := [Cont fsep [Leaf (prefix3 text)];
                         Cont fsep [Leaf sep0];
                         Cont fsep [Leaf seps']] in
            Ok (Cont (chr sep)
                  (if decide (text' = "") then data
                   else data ++ map (split_below rest) (split sep text')))
        | "" => Raise (IndexError "string index out of range")
        end
      else Ok (Cont (chr sep) (map (split_below rest) (split sep text)))
  end.

(** [_split] at the message level. *)
Definition split_message (seps : list ascii) (text : string) : Result node :=
  match seps with
  | [] => Ok (Leaf text)
  | sep :: rest =>
      if negb (applies seps text) then Ok (Cont (chr sep) [Leaf text])
      else
        segs ← mapM (split_segment rest) (split sep text);
        Ok (Cont (chr sep) segs)
  end.

(** Python's [str.strip()] on the ASCII range. *)
Definition whitespace : list ascii :=
  ["009"; "010"; "011"; "012"; "013"; "028"; "029"; "030"; "031"; " "]%char.

Definition nth_or (l : list ascii) (i : nat) (d : ascii) : ascii :=
  match l !! i with Some c => c | None => d end.

(** [create_parse_plan]: the separators, read from the header segment.
    [seps[0]] is the field separator, [seps[1]] the component separator,
    [seps[2]] the repetition separator, [seps[4]] the sub-component
    separator. *)
Definition create_parse_plan (strmsg : string) : Result (list ascii) :=
  if negb (is_header_id (prefix3 strmsg)) then
    Raise (ParseException
             ("First segment is " +:+ prefix3 strmsg
              +:+ ", must be one of MSH, FHS or BHS"))
  else
    sep0 ← char_at strmsg 3;
    match sep0 with
    | String c0 _ =>
        let seps :=
          list_ascii_of_string
            (slice_to_find 3 (find_from c0 4 strmsg) strmsg) in
        field ← index seps 0;
        Ok [CR; field; nth_or seps 2 "~"%char; nth_or seps 1 "^"%char;
            nth_or seps 4 "&"%char]
    | "" => Raise (IndexError "string index out of range")
    end.

(** [hl7.parse(lines)] *)
Definition parse (lines : string) : Result node :=
  let strmsg := strip whitespace lines in
  plan ← create_parse_plan strmsg;
  split_message plan strmsg.

(** [[s for s in message if s[0][0] == segment_id]] *)
Fixpoint matching (segment_id : string) (segs : list node)
  : Result (list node) :=
  match segs with
  | [] => Ok []
  | s :: rest =>
      f ← getitem s 0;
      n ← getitem f 0;
      ms ← matching segment_id rest;
      Ok (if eq_str n segment_id then s :: ms else ms)
  end.

Definition children (n : node) : list node :=
  match n with
  | Leaf s => map (fun c => Leaf (chr c)) (list_ascii_of_string s)
  | Cont _ items => items
  end.

(** [message.segments(segment_id)]: [KeyError] when there is none. *)
Definition segments (message : node) (segment_id : string)
  : Result (list node) :=
  ms ← matching segment_id (children message);
  match ms with
  | [] => Raise (KeyError ("No " +:+ segment_id +:+ " segments"))
  | _ => Ok ms
  end.

(** [message.segment(segment_id)]: the first of them. *)
Definition segment (message : node) (segment_id : string) : Result node :=
  ms ← segments message segment_id;
  index ms 0.

End Hl7.

(** ** The HL7 codec ([HL7ResultProcessor]) *)

Module HL7ResultProcessor.
Import Hl7.

(** [str(seg[i][j] if seg[i][j] else '')] *)
Definition item_str (seg : node) (i j : nat) : Result string :=
  f ← getitem seg i;
  x ← getitem f j;
  Ok (if truthy x then str x else "").

(** The dict built for one [OBX] segment. *)
Definition obx_result (obx : node) : Result ResultLine :=
  c ← item_str obx 3 0;
  n ← item_str obx 3 1;
  v ← item_str obx 5 0;
  u ← item_str obx 6 0;
  r ← item_str obx 7 0;
  f ← item_str obx 8 0;
  s ← item_str obx 11 0;
  Ok {| test_code := c; test_name := Some n; value := v; units := u;
        reference_range := r; flags := Some f; status := s |}.

Definition wrap (e : exn) : exn :=
  HTTPException 400 ("Error processing HL7 message: " +:+ str_exn e).

(** The body of [process_result] once the message is parsed. *)
Definition process_message (message : node) : Result Processed :=
  pid ← segment message "PID";
  patient_id ← item_str pid 3 0;
  patient_name ← item_str pid 5 0;
  obxs ← segments message "OBX";
  results ← mapM obx_result obxs;
  msh ← segment message "MSH";
  mid ← getitem msh 10;
  msh' ← segment message "MSH";
  mdt ← getitem msh' 7;
  Ok {| message_id := str mid; message_datetime := str mdt;
        patient_id := patient_id; patient_name := patient_name;
        results := results |}.

Definition process_result (raw_data : string) : Result Processed :=
  reraise wrap (message ← parse raw_data; process_message message).

(** The second line of the acknowledgement is a plain string literal, not
    an f-string: its braces are sent as they are. *)
Definition send_acknowledgment (communication_type : CommunicationType)
    (clk : Clock) (message_id : string) : AckReturn :=
  if decide (communication_type <> BIDIRECTIONAL_WITH_ACK) then RetBool true
  else
    RetStr (("MSH|^~\&|LIS|LAB|EQP|LAB|" +:+ now_compact clk +:+ "||ACK|"
             +:+ message_id +:+ "|P|2.5.1" +:+ PyStr.chr PyStr.CR)
            +:+ ("MSA|AA|{message_id}|Message received successfully"
                 +:+ PyStr.chr PyStr.CR)).

End HL7ResultProcessor.

(** ** Observable effects

    What the services do to the outside: log records, data handed to a
    transport, suspensions, HTTP requests.  A run collects them in order. *)

Inductive Level : Type := INFO | WARNING | ERROR.

Inductive Event : Type :=
  | Log (level : Level) (msg : string)
  | Written (oid : nat) (data : string)
  | SendMessage (oid : nat) (message : Hl7.node)
  | Sleep (seconds : Z)
  | HttpPost (url : string) (identifier : string).

(** ** The FHIR codec ([HL7FHIRResultProcessor]), acknowledgement side *)

Module HL7FHIRResultProcessor.

(** [post] is the outcome of [requests.post]: the status code of the
    response, or the exception raised.  The body posted is the
    [MessageHeader] dict whose [response.identifier] is the message id. *)
Definition send_acknowledgment (communication_type : CommunicationType)
    (endpoint : string) (post : Result Z) (message_id : string)
  : AckReturn * list Event :=
  if decide (communication_type <> BIDIRECTIONAL_WITH_ACK)
  then (RetBool true, [])
  else
    let sent := [HttpPost (endpoint +:+ "/$process-message") message_id] in
    match post with
    | Ok status_code => (RetBool (bool_decide (status_code = 200%Z)), sent)
    | Raise _ => (RetBool false, sent)
    end.

End HL7FHIRResultProcessor.

(** ** [ResultProcessorFactory] *)

(** The processor objects: the class and the constructor arguments kept as
    attributes. *)
Inductive ResultProcessor : Type :=
  | HL7Processor (communication_type : CommunicationType)
  | ASTMProcessor (communication_type : CommunicationType)
  | FHIRProcessor (communication_type : CommunicationType) (endpoint : string).

Module ResultProcessorFactory.

(** [not endpoint]: [None] or the empty string. *)
Definition no_endpoint (endpoint : option string) : bool :=
  match endpoint with
  | None => true
  | Some e => String.eqb e ""
  end.

Definition create_processor (protocol : ProtocolType)
    (communication_type : CommunicationType) (endpoint : option string)
  : Result ResultProcessor :=
  match protocol with
  | HL7 => Ok (HL7Processor communication_type)
  | ASTM => Ok (ASTMProcessor communication_type)
  | HL7_FHIR =>
      if no_endpoint endpoint
      then Raise (ValueError "FHIR endpoint is required for HL7-FHIR protocol")
      else Ok (FHIRProcessor communication_type (default "" endpoint))
  | _ => Raise (ValueError
                  ("Unsupported protocol: " +:+ ProtocolType_value protocol))
  end.

End ResultProcessorFactory.

(** ** Transports and the connection registry
    ([app/services/equipment_interface.py]) *)

(** A value of the [config] dict ([Dict[str, Any]]). *)
Inductive PyVal : Type :=
  | VNone
  | VStr (s : string)
  | VInt (z : Z)
  | VProtocol (p : ProtocolType)
  | VConnection (c : ConnectionType).

(** The two transport classes with the attributes their constructors
    store. *)
Inductive EquipmentInterface : Type :=
  | NetworkEquipment (ip port protocol : PyVal)
  | SerialEquipment (port baud_rate protocol data_bits parity stop_bits : PyVal).

Definition interface_protocol (i : EquipmentInterface) : PyVal :=
  match i with
  | NetworkEquipment _ _ p => p
  | SerialEquipment _ _ p _ _ _ => p
  end.

(** An interface object: [oid] is its identity, so that two objects built
    from the same config are still told apart. *)
Record Connection : Type := {
  oid : nat;
  interface : EquipmentInterface
}.

(** One [asyncio.Task] running [_listen_for_results(equipment, processor)]. *)
Record Task : Type := {
  task_equipment : Equipment;
  task_processor : ResultProcessor
}.

(** A row of [test_results] as [_save_results] fills it. *)
Record TestResult : Type := {
  tr_equipment_id : Z;
  tr_patient_id : string;
  tr_test_code : string;
  tr_test_name : string;
  tr_result_value : string;
  tr_units : string;
  tr_reference_range : string;
  tr_flags : string;
  tr_status : string;
  tr_result_datetime : string;
  tr_raw_message : string
}.

(** The store the services share: the registry of the module-level
    [EquipmentManager], the listeners of a [ResultHandler], the rows of
    [equipment], the session ([pending] holds what was added and not yet
    committed), and the effects so far. *)
Record World : Type := {
  active_connections : gmap Z Connection;
  allocated : nat;
  active_listeners : gmap Z Task;
  equipment_rows : list Equipment;
  pending : list TestResult;
  committed : list TestResult;
  trace : list Event
}.

Definition emit (evs : list Event) (w : World) : World :=
  {| active_connections := active_connections w; allocated := allocated w;
     active_listeners := active_listeners w;
     equipment_rows := equipment_rows w; pending := pending w;
     committed := committed w; trace := trace w ++ evs |}.

Definition set_connections (m : gmap Z Connection) (w : World) : World :=
  {| active_connections := m; allocated := allocated w;
     active_listeners := active_listeners w;
     equipment_rows := equipment_rows w; pending := pending w;
     committed := committed w; trace := trace w |}.

Definition set_allocated (n : nat) (w : World) : World :=
  {| active_connections := active_connections w; allocated := n;
     active_listeners := active_listeners w;
     equipment_rows := equipment_rows w; pending := pending w;
     committed := committed w; trace := trace w |}.

Definition set_listeners (m : gmap Z Task) (w : World) : World :=
  {| active_connections := active_connections w; allocated := allocated w;
     active_listeners := m;
     equipment_rows := equipment_rows w; pending := pending w;
     committed := committed w; trace := trace w |}.

Definition set_session (p c : list TestResult) (w : World) : World :=
  {| active_connections := active_connections w; allocated := allocated w;
     active_listeners := active_listeners w;
     equipment_rows := equipment_rows w; pending := p;
     committed := c; trace := trace w |}.

Definition show_Z (z : Z) : string := pretty z.

Definition show_val (v : PyVal) : string :=
  match v with
  | VNone => "None"
  | VStr s => s
  | VInt z => show_Z z
  | VProtocol p => ProtocolType_value p
  | VConnection c => ConnectionType_value c
  end.

Module EquipmentManager.

(** [config[key]] *)
Definition item (config : gmap string PyVal) (key : string) : Result PyVal :=
  match config !! key with
  | Some v => Ok v
  | None => Raise (KeyError key)
  end.

(** [config.get(key, d)] *)
Definition get (config : gmap string PyVal) (key : string) (d : PyVal)
  : PyVal :=
  default d (config !! key).

(** [v == ConnectionType.NETWORK]: the member is a [str], equal to the
    plain string of its value as well. *)
Definition is_network (v : PyVal) : bool :=
  match v with
  | VConnection NETWORK => true
  | VStr s => String.eqb s "NETWORK"
  | _ => false
  end.

(** The first statement of [connect_equipment]: which transport object is
    constructed, from which entries of [config]. *)
Definition make_interface (config : gmap string PyVal)
  : Result EquipmentInterface :=
  ct ← item config "connection_type";
  if is_network ct then
    ip ← item config "ip_address";
    port ← item config "port";
    protocol ← item config "protocol";
    Ok (NetworkEquipment ip port protocol)
  else
    port ← item config "com_port";
    baud_rate ← item config "baud_rate";
    protocol ← item config "protocol";
    Ok (SerialEquipment port baud_rate protocol
          (get config "data_bits" (VInt 8))
          (get config "parity" (VStr "N"))
          (get config "stop_bits" (VInt 1))).

(** [interface.connect()]: [opens] is what the operating system answers
    when the socket, the MLLP client or the serial port is opened. *)
Definition interface_connect (opens : EquipmentInterface -> Result unit)
    (i : EquipmentInterface) : Result unit * list Event :=
  match opens i with
  | Ok _ =>
      (Ok (),
       [Log INFO
          match i with
          | NetworkEquipment ip port _ =>
              "Connected to equipment at " +:+ show_val ip +:+ ":"
              +:+ show_val port
          | SerialEquipment port _ _ _ _ _ =>
              "Connected to equipment on " +:+ show_val port
          end])
  | Raise e =>
      (Raise e,
       [Log ERROR ("Failed to connect to equipment: " +:+ str_exn e)])
  end.

Definition failed (equipment_id : Z) (e : exn) : Event :=
  Log ERROR ("Failed to connect equipment " +:+ show_Z equipment_id
             +:+ ": " +:+ str_exn e).

(** [connect_equipment(equipment_id, config)] *)
Definition connect_equipment (opens : EquipmentInterface -> Result unit)
    (equipment_id : Z) (config : gmap string PyVal) (w : World)
  : Result Connection * World :=
  match make_interface config with
  | Raise e => (Raise e, emit [failed equipment_id e] w)
  | Ok i =>
      let c := {| oid := allocated w; interface := i |} in
      let w1 := set_allocated (S (allocated w)) w in
      match interface_connect opens i with
      | (Raise e, evs) => (Raise e, emit (evs ++ [failed equipment_id e]) w1)
      | (Ok _, evs) =>
          (Ok c,
           set_connections (<[equipment_id := c]> (active_connections w1))
             (emit evs w1))
      end
  end.

(** [interface.disconnect()] swallows what closing raises. *)
Definition interface_disconnect (closes : Result unit) : list Event :=
  match closes with
  | Ok _ => [Log INFO "Disconnected from equipment"]
  | Raise e =>
      [Log ERROR ("Error disconnecting from equipment: " +:+ str_exn e)]
  end.

(** [disconnect_equipment(equipment_id)] *)
Definition disconnect_equipment (closes : Result unit) (equipment_id : Z)
    (w : World) : Result unit * World :=
  match active_connections w !! equipment_id with
  | None => (Ok (), w)
  | Some _ =>
      (Ok (),
       emit (interface_disconnect closes
             ++ [Log INFO ("Equipment " +:+ show_Z equipment_id
                           +:+ " disconnected")])
         (set_connections (delete equipment_id (active_connections w)) w))
  end.

(** [v == ProtocolType.X] *)
Definition is_protocol (p : ProtocolType) (v : PyVal) : bool :=
  match v with
  | VProtocol q => bool_decide (p = q)
  | VStr s => String.eqb s (ProtocolType_value p)
  | _ => false
  end.

(** [interface.receive_data()]: [raw] is what the read returns. *)
Definition receive_data (i : EquipmentInterface) (raw : Result string)
  : Result string * list Event :=
  match raw with
  | Raise e => (Raise e, [Log ERROR ("Error receiving data: " +:+ str_exn e)])
  | Ok data =>
      match i with
      | NetworkEquipment _ _ _ => (Ok data, [])
      | SerialEquipment _ _ protocol _ _ _ =>
          if is_protocol ASTM protocol
          then (Ok (PyStr.strip [PyStr.STX; PyStr.ETX; PyStr.CR; PyStr.LF]
                      data), [])
          else (Ok data, [])
      end
  end.

Definition sending_failed (e : exn) : list Event :=
  [Log ERROR ("Error sending command: " +:+ str_exn e)].

(** [interface.send_command(command)]: [raw] is what the transport
    answers after the write. *)
Definition send_command (c : Connection) (raw : Result string)
    (command : string) : Result string * list Event :=
  match interface c with
  | NetworkEquipment _ _ protocol =>
      if is_protocol HL7 protocol then
        match Hl7.parse command with
        | Raise e => (Raise e, sending_failed e)
        | Ok message =>
            match raw with
            | Ok response => (Ok response, [SendMessage (oid c) message])
            | Raise e =>
                (Raise e, SendMessage (oid c) message :: sending_failed e)
            end
        end
      else
        match receive_data (interface c) raw with
        | (Ok response, evs) => (Ok response, Written (oid c) command :: evs)
        | (Raise e, evs) =>
            (Raise e, Written (oid c) command :: evs ++ sending_failed e)
        end
  | SerialEquipment _ _ protocol _ _ _ =>
      let framed :=
        if is_protocol ASTM protocol
        then PyStr.chr PyStr.STX +:+ command +:+ PyStr.chr PyStr.ETX
             +:+ PyStr.chr PyStr.CR +:+ PyStr.chr PyStr.LF
        else command in
      match receive_data (interface c) raw with
      | (Ok response, evs) => (Ok response, Written (oid c) framed :: evs)
      | (Raise e, evs) =>
          (Raise e, Written (oid c) framed :: evs ++ sending_failed e)
      end
  end.

(** [send_command_to_equipment(equipment_id, command)] *)
Definition send_command_to_equipment (raw : Result string)
    (equipment_id : Z) (command : string) (w : World)
  : Result string * World :=
  let failed e :=
    Log ERROR ("Error sending command to equipment " +:+ show_Z equipment_id
               +:+ ": " +:+ str_exn e) in
  match active_connections w !! equipment_id with
  | None =>
      let e := ValueError ("Equipment " +:+ show_Z equipment_id
                           +:+ " is not connected") in
      (Raise e, emit [failed e] w)
  | Some c =>
      match send_command c raw command with
      | (Ok response, evs) => (Ok response, emit evs w)
      | (Raise e, evs) => (Raise e, emit (evs ++ [failed e]) w)
      end
  end.

(** The class defines the three methods above and no other.  The
    listener of [result_handler.py] calls
    [receive_data_from_equipment(equipment.id)] on the manager; on the
    class as written that attribute lookup raises this. *)
Definition no_receive_data_from_equipment : exn :=
  AttributeError
    "'EquipmentManager' object has no attribute 'receive_data_from_equipment'".

End EquipmentManager.

(** ** Result ingestion ([app/services/result_handler.py]) *)

(** The outcome of an [await]: the awaited call returned or raised, or the
    task was cancelled while suspended there.  [asyncio.CancelledError] is
    not an [Exception] (Python 3.8 and later), so [except Exception] lets it
    through. *)
Inductive Await (A : Type) : Type :=
  | Resumed (a : A)
  | Cancelled.
Arguments Resumed {A} a.
Arguments Cancelled {A}.

(** What the outside does during one turn of the listener loop. *)
Record Turn : Type := {
  turn_clock : Clock;
  (** [await self.equipment_manager.receive_data_from_equipment(...)] *)
  turn_receive : Await (Result string);
  (** the [asyncio.sleep] of this turn, when the turn reaches one *)
  turn_sleep : Await unit;
  (** [self.db.commit()] *)
  turn_commit : Result unit;
  (** [requests.post] of the FHIR acknowledgement *)
  turn_post : Result Z
}.

Inductive Status : Type := Listening | Exited.

Module ResultHandler.

Section Handler.

(** Library functions the handler goes through: the JSON decoding of the
    FHIR codec, [datetime.fromisoformat], and [str] of the result dict. *)
Variable fhir_process_result : string -> Result Processed.
Variable fromisoformat : string -> Result string.
Variable repr_processed : Processed -> string.

(** [processor.process_result(raw_data)] *)
Definition process_result (processor : ResultProcessor) (clk : Clock)
    (raw_data : string) : Result Processed :=
  match processor with
  | HL7Processor _ => HL7ResultProcessor.process_result raw_data
  | ASTMProcessor _ => ASTMResultProcessor.process_result clk raw_data
  | FHIRProcessor _ _ => fhir_process_result raw_data
  end.

(** [processor.send_acknowledgment(message_id)] *)
Definition send_acknowledgment (processor : ResultProcessor) (clk : Clock)
    (post : Result Z) (message_id : string) : AckReturn * list Event :=
  match processor with
  | HL7Processor ct =>
      (HL7ResultProcessor.send_acknowledgment ct clk message_id, [])
  | ASTMProcessor ct =>
      (ASTMResultProcessor.send_acknowledgment ct message_id, [])
  | FHIRProcessor ct endpoint =>
      HL7FHIRResultProcessor.send_acknowledgment ct endpoint post message_id
  end.

(** [self.db.query(Equipment).filter(Equipment.id == equipment_id).first()] *)
Definition query (w : World) (equipment_id : Z) : option Equipment :=
  List.find (fun e => bool_decide (eq_id e = equipment_id))
    (equipment_rows w).

Definition not_found (equipment_id : Z) : exn :=
  ValueError ("Equipment " +:+ show_Z equipment_id +:+ " not found").

(** [start_listening(equipment_id)] *)
Definition start_listening (equipment_id : Z) (w : World)
  : Result unit * World :=
  match query w equipment_id with
  | None => (Raise (not_found equipment_id), w)
  | Some equipment =>
      match active_listeners w !! equipment_id with
      | Some _ =>
          (Ok (),
           emit [Log WARNING ("Already listening to equipment "
                              +:+ show_Z equipment_id)] w)
      | None =>
          match ResultProcessorFactory.create_processor
                  (eq_protocol equipment) (eq_communication_type equipment)
                  (eq_result_endpoint equipment) with
          | Raise e => (Raise e, w)
          | Ok processor =>
              let task := {| task_equipment := equipment;
                             task_processor := processor |} in
              (Ok (),
               emit [Log INFO ("Started listening to equipment "
                               +:+ show_Z equipment_id)]
                 (set_listeners
                    (<[equipment_id := task]> (active_listeners w)) w))
          end
      end
  end.

(** [stop_listening(equipment_id)] *)
Definition stop_listening (equipment_id : Z) (w : World) : World :=
  match active_listeners w !! equipment_id with
  | None => w
  | Some _ =>
      emit [Log INFO ("Stopped listening to equipment "
                      +:+ show_Z equipment_id)]
        (set_listeners (delete equipment_id (active_listeners w)) w)
  end.

(** The [TestResult] built for one entry of [results]. *)
Definition make_row (equipment : Equipment) (processed : Processed)
    (result : ResultLine) : Result TestResult :=
  dt ← fromisoformat (message_datetime processed);
  Ok {| tr_equipment_id := eq_id equipment;
        tr_patient_id := patient_id processed;
        tr_test_code := test_code result;
        tr_test_name := default "" (test_name result);
        tr_result_value := value result;
        tr_units := units result;
        tr_reference_range := reference_range result;
        tr_flags := default "" (flags result);
        tr_status := status result;
        tr_result_datetime := dt;
        tr_raw_message := repr_processed processed |}.

(** [_save_results(equipment, processed_results)]: the rows are added to
    the session and committed together; on any exception the session is
    rolled back and the exception raised again. *)
Definition save_results (commit : Result unit) (equipment : Equipment)
    (processed : Processed) (w : World) : Result unit * World :=
  let failed e :=
    (Raise e,
     emit [Log ERROR ("Error saving results: " +:+ str_exn e)]
       (set_session [] (committed w) w)) in
  match mapM (make_row equipment processed) (results processed) with
  | Raise e => failed e
  | Ok rows =>
      match commit with
      | Raise e => failed e
      | Ok _ =>
          (Ok (),
           emit [Log INFO ("Saved results for equipment "
                           +:+ show_Z (eq_id equipment) +:+ ", patient "
                           +:+ patient_id processed)]
             (set_session [] (committed w ++ pending w ++ rows) w))
      end
  end.

Definition cancelled (equipment : Equipment) : Event :=
  Log INFO ("Listener for equipment " +:+ show_Z (eq_id equipment)
            +:+ " was cancelled").

(** The inner [except Exception as e]: log, sleep five seconds, go round
    again.  A cancellation during that sleep ends the loop. *)
Definition recover (equipment : Equipment) (e : exn) (t : Turn) (w : World)
  : Status * World :=
  let w1 :=
    emit [Log ERROR ("Error processing results from equipment "
                     +:+ show_Z (eq_id equipment) +:+ ": " +:+ str_exn e);
          Sleep 5] w in
  match turn_sleep t with
  | Resumed _ => (Listening, w1)
  | Cancelled => (Exited, emit [cancelled equipment] w1)
  end.

(** [if equipment.polling_interval]: neither [None] nor zero. *)
Definition polling (equipment : Equipment) : option Z :=
  match eq_polling_interval equipment with
  | Some n => if decide (n = 0%Z) then None else Some n
  | None => None
  end.

(** One turn of [while True] in [_listen_for_results]. *)
Definition turn (equipment : Equipment) (processor : ResultProcessor)
    (t : Turn) (w : World) : Status * World :=
  match turn_receive t with
  | Cancelled => (Exited, emit [cancelled equipment] w)
  | Resumed (Raise e) => recover equipment e t w
  | Resumed (Ok raw_data) =>
      if decide (raw_data = "") then
        match polling equipment with
        | None => (Listening, w)
        | Some n =>
            match turn_sleep t with
            | Resumed _ => (Listening, emit [Sleep n] w)
            | Cancelled => (Exited, emit [Sleep n; cancelled equipment] w)
            end
        end
      else
        match process_result processor (turn_clock t) raw_data with
        | Raise e => recover equipment e t w
        | Ok processed =>
            match save_results (turn_commit t) equipment processed w with
            | (Raise e, w1) => recover equipment e t w1
            | (Ok _, w1) =>
                if decide (eq_communication_type equipment
                           = BIDIRECTIONAL_WITH_ACK)
                then (Listening,
                      emit (send_acknowledgment processor (turn_clock t)
                              (turn_post t) (message_id processed)).2 w1)
                else (Listening, w1)
            end
        end
  end.

(** [_listen_for_results(equipment, processor)] over the turns the outside
    provides: the loop has no exit of its own. *)
Fixpoint listen_for_results (equipment : Equipment)
    (processor : ResultProcessor) (turns : list Turn) (w : World)
  : Status * World :=
  match turns with
  | [] => (Listening, w)
  | t :: rest =>
      match turn equipment processor t w with
      | (Listening, w1) => listen_for_results equipment processor rest w1
      | (Exited, w1) => (Exited, w1)
      end
  end.

(** [patient_id or ''] *)
Definition or_empty (patient_id : option string) : string :=
  default "" patient_id.

(** [_build_request_command(protocol, patient_id)].  The module does not
    import [json], so the FHIR branch stops at the name. *)
Definition build_request_command (protocol : ProtocolType) (clk : Clock)
    (patient_id : option string) : Result string :=
  match protocol with
  | HL7 =>
      Ok ("MSH|^~\&|LIS|LAB|EQP|LAB|" +:+ now_compact clk +:+ "||QRY^R02|"
          +:+ "MSG" +:+ now_compact clk +:+ "|P|2.5.1" +:+ PyStr.chr PyStr.CR
          +:+ "QRD|" +:+ now_compact clk +:+ "|R|I|"
          +:+ "QueryID|||RD|" +:+ or_empty patient_id +:+ "|^^^||"
          +:+ PyStr.chr PyStr.CR)
  | ASTM =>
      Ok (PyStr.chr PyStr.STX +:+ "H|\^&|||LIS|LAB||" +:+ or_empty patient_id
          +:+ "||P|1" +:+ PyStr.chr PyStr.CR +:+ "Q|1|"
          +:+ or_empty patient_id +:+ "^ALL||ALL" +:+ PyStr.chr PyStr.CR
          +:+ PyStr.chr PyStr.ETX +:+ PyStr.chr PyStr.CR
          +:+ PyStr.chr PyStr.LF)
  | HL7_FHIR => Raise (NameError "name 'json' is not defined")
  | _ => Raise (ValueError ("Unsupported protocol for result request: "
                            +:+ ProtocolType_value protocol))
  end.

(** [request_results(equipment_id, patient_id)]; [raw] is what the
    transport answers if a command is written. *)
Definition request_results (clk : Clock) (raw : Result string)
    (equipment_id : Z) (patient_id : option string) (w : World)
  : Result bool * World :=
  match query w equipment_id with
  | None => (Raise (not_found equipment_id), w)
  | Some equipment =>
      if decide (eq_communication_type equipment = UNIDIRECTIONAL) then
        (Raise (ValueError
                  "Cannot request results from unidirectional equipment"), w)
      else
        let failed e w' :=
          (Ok false,
           emit [Log ERROR ("Error requesting results from equipment "
                            +:+ show_Z equipment_id +:+ ": " +:+ str_exn e)]
             w') in
        match build_request_command (eq_protocol equipment) clk patient_id
        with
        | Raise e => failed e w
        | Ok command =>
            match EquipmentManager.send_command_to_equipment raw
                    equipment_id command w with
            | (Ok _, w') => (Ok true, w')
            | (Raise e, w') => failed e w'
            end
        end
  end.

End Handler.

End ResultHandler.

(** ** The scenarios of the specification *)

Definition clock0 : Clock :=
  {| now_iso := "2025-01-01T12:00:00"; now_compact := "20250101120000" |}.

(** [\x02H|\^&|||LIS|LAB||PT002||P|1\rP|1||PT002\rR|1|HGB|14.2|g/dL|12-16||F\r\x03\r\n] *)
Definition scenario_astm : string :=
  PyStr.chr PyStr.STX +:+ "H|\^&|||LIS|LAB||PT002||P|1" +:+ PyStr.chr PyStr.CR
  +:+ "P|1||PT002" +:+ PyStr.chr PyStr.CR
  +:+ "R|1|HGB|14.2|g/dL|12-16||F" +:+ PyStr.chr PyStr.CR
  +:+ PyStr.chr PyStr.ETX +:+ PyStr.chr PyStr.CR +:+ PyStr.chr PyStr.LF.

(** [MSH|^~\&|LIS|LAB|EQP|LAB|20250101120000||ORU^R01|MSG1|P|2.5.1\rPID|||PT001||Doe^John\rOBX|1|NM|GLU^Glucose||95|mg/dL|70-110|N|||F\r] *)
Definition scenario_hl7 : string :=
  "MSH|^~\&|LIS|LAB|EQP|LAB|20250101120000||ORU^R01|MSG1|P|2.5.1"
  +:+ PyStr.chr PyStr.CR +:+ "PID|||PT001||Doe^John" +:+ PyStr.chr PyStr.CR
  +:+ "OBX|1|NM|GLU^Glucose||95|mg/dL|70-110|N|||F" +:+ PyStr.chr PyStr.CR.

(** ** Notions used in the statements, and concrete inputs *)

(** Field [i] of a record, empty when the record has no such field. *)
Definition field (fields : list string) (i : nat) : string :=
  default "" (fields !! i).

(** The result line the codec builds from the fields of an [R] record. *)
Definition line (fields : list string) : ResultLine :=
  {| test_code := field fields 2; test_name := None;
     value := field fields 3; units := field fields 4;
     reference_range := field fields 5; flags := Some (field fields 6);
     status := field fields 8 |}.

(** A record whose first character is [R]. *)
Definition is_result (record : string) : bool :=
  match record with
  | String c _ => Ascii.eqb c "R"
  | "" => false
  end.

(** An HL7 acknowledgement of message [m]: a header segment of message type
    [ACK] that carries [m] as its control id, then an [MSA] segment whose
    acknowledgement code is [AA]. *)
Definition hl7_ack (m ack : string) : Prop :=
  exists ts rest,
    ack = PyStr.join "|" ["MSH"; "^~\&"; "LIS"; "LAB"; "EQP"; "LAB"; ts; "";
                          "ACK"; m; "P"; "2.5.1"]
          +:+ PyStr.chr PyStr.CR
          +:+ PyStr.join "|" ["MSA"; "AA"; rest]
          +:+ PyStr.chr PyStr.CR.

(** A world with nothing connected, nobody listening and nothing stored. *)
Definition world0 (rows : list Equipment) : World :=
  {| active_connections := ∅; allocated := 0; active_listeners := ∅;
     equipment_rows := rows; pending := []; committed := []; trace := [] |}.

(** The dict the connect endpoint builds from an [Equipment] row reachable
    over the network. *)
Definition config_network (p : ProtocolType) : gmap string PyVal :=
  list_to_map
    [("connection_type", VConnection NETWORK); ("protocol", VProtocol p);
     ("ip_address", VStr "10.0.0.5"); ("port", VInt 5000);
     ("com_port", VNone); ("baud_rate", VNone); ("data_bits", VNone);
     ("parity", VNone); ("stop_bits", VNone)].

(** The same for an instrument on a serial line. *)
Definition config_serial (c : ConnectionType) (p : ProtocolType)
  : gmap string PyVal :=
  list_to_map
    [("connection_type", VConnection c); ("protocol", VProtocol p);
     ("ip_address", VNone); ("port", VNone);
     ("com_port", VStr "/dev/ttyUSB0"); ("baud_rate", VInt 9600);
     ("data_bits", VInt 8); ("parity", VStr "N"); ("stop_bits", VInt 1)].

(** Every transport opens. *)
Definition always_opens : EquipmentInterface -> Result unit :=
  fun _ => Ok ().

(** The registry after equipment 1 has been connected once. *)
Definition world_connected : World :=
  (EquipmentManager.connect_equipment always_opens 1 (config_network ASTM)
     (world0 [])).2.

(** The interface objects of a first and of a second connect with
    [config_network ASTM]. *)
Definition first_connection : Connection :=
  {| oid := 0;
     interface := NetworkEquipment (VStr "10.0.0.5") (VInt 5000)
                    (VProtocol ASTM) |}.

Definition second_connection : Connection :=
  {| oid := 1;
     interface := NetworkEquipment (VStr "10.0.0.5") (VInt 5000)
                    (VProtocol ASTM) |}.

(** The protocols [create_processor] has a class for. *)
Definition has_codec (p : ProtocolType) : Prop :=
  p = HL7 \/ p = ASTM \/ p = HL7_FHIR.

(** An [Equipment] row on the network. *)
Definition equipment_row (id : Z) (p : ProtocolType) (ct : CommunicationType)
  : Equipment :=
  {| eq_id := id; eq_protocol := p; eq_connection_type := NETWORK;
     eq_communication_type := ct; eq_result_endpoint := None;
     eq_polling_interval := None |}.

(** The world in which equipment 3, unidirectional, is connected. *)
Definition world_unidirectional : World :=
  (EquipmentManager.connect_equipment always_opens 3 (config_network ASTM)
     (world0 [equipment_row 3 ASTM UNIDIRECTIONAL])).2.

(** An HL7 message the codec accepts: field 3 of its [OBX] segment carries
    code and name as two repetitions.  Its timestamp is written the way
    [datetime.fromisoformat] reads it. *)
Definition scenario_hl7_repeated : string :=
  "MSH|^~\&|LIS|LAB|EQP|LAB|2025-01-01T12:00:00||ORU^R01|MSG1|P|2.5.1"
  +:+ PyStr.chr PyStr.CR +:+ "PID|||PT001||Doe^John" +:+ PyStr.chr PyStr.CR
  +:+ "OBX|1|NM|GLU~Glucose||95|mg/dL|70-110|N|||F" +:+ PyStr.chr PyStr.CR.

(** A turn in which the instrument delivers [raw] and nothing else goes
    wrong. *)
Definition delivers (raw : string) : Turn :=
  {| turn_clock := clock0; turn_receive := Resumed (Ok raw);
     turn_sleep := Resumed (); turn_commit := Ok (); turn_post := Ok 200%Z |}.

(** What the inner handler adds to the trace for exception [e]. *)
Definition recovery (equipment : Equipment) (e : exn) : list Event :=
  [Log ERROR ("Error processing results from equipment "
              +:+ show_Z (eq_id equipment) +:+ ": " +:+ str_exn e);
   Sleep 5].

(** Stand-ins for the library functions in a concrete run: no FHIR
    payloads occur, the ISO timestamp is kept as its text, the audit copy
    is left empty. *)
Definition no_fhir : string -> Result Processed :=
  fun _ => Raise (ValueError "Expecting value: line 1 column 1 (char 0)").

Definition keep_timestamp : string -> Result string := fun s => Ok s.

Definition no_audit : Processed -> string := fun _ => "".


(** ** Notions used in the further properties *)

(** The characters the ASTM paths strip from both ends of a payload. *)
Definition astm_framing : list ascii :=
  [PyStr.STX; PyStr.ETX; PyStr.CR; PyStr.LF].

(** [\x02{command}\x03\r\n] *)
Definition astm_frame (command : string) : string :=
  PyStr.chr PyStr.STX +:+ command +:+ PyStr.chr PyStr.ETX
  +:+ PyStr.chr PyStr.CR +:+ PyStr.chr PyStr.LF.

(** Every character of [s] is one of [chars]. *)
Fixpoint all_in (chars : list ascii) (s : string) : bool :=
  match s with
  | "" => true
  | String c r => PyStr.mem c chars && all_in chars r
  end.

(** The first character of [s] is one of [chars]. *)
Definition starts_with_any (chars : list ascii) (s : string) : bool :=
  match s with
  | "" => false
  | String c _ => PyStr.mem c chars
  end.

(** The last character of [s] is one of [chars]. *)
Fixpoint ends_with_any (chars : list ascii) (s : string) : bool :=
  match s with
  | "" => false
  | String c r =>
      match r with
      | "" => PyStr.mem c chars
      | _ => ends_with_any chars r
      end
  end.

(** A serial transport for an ASTM instrument, as an interface object. *)
Definition serial_astm (oid : nat) : Connection :=
  {| oid := oid;
     interface := SerialEquipment (VStr "/dev/ttyUSB0") (VInt 9600)
                    (VProtocol ASTM) (VInt 8) (VStr "N") (VInt 1) |}.

(** An event that hands data to a transport. *)
Definition is_transport_write (ev : Event) : Prop :=
  match ev with
  | Written _ _ | SendMessage _ _ => True
  | _ => False
  end.

(** A record whose first character is [c]. *)
Definition record_type_is (c : ascii) (record : string) : bool :=
  match record with
  | String d _ => Ascii.eqb d c
  | "" => false
  end.

(** The header and the patient the codec builds from the fields of an [H]
    and of a [P] record. *)
Definition header_of (record : string) : ASTMResultProcessor.Header :=
  {| ASTMResultProcessor.sender := field (PyStr.split "|" record) 4;
     ASTMResultProcessor.header_message_id := field (PyStr.split "|" record) 5 |}.

Definition patient_of (record : string) : ASTMResultProcessor.Patient :=
  {| ASTMResultProcessor.id := field (PyStr.split "|" record) 3;
     ASTMResultProcessor.name := field (PyStr.split "|" record) 4 |}.

(** The state of the ASTM loop after [records], from state [acc]. *)
Definition after (acc : ASTMResultProcessor.Acc) (records : list string)
  : ASTMResultProcessor.Acc :=
  {| ASTMResultProcessor.header :=
       match last (filter (record_type_is "H") records) with
       | Some r => Some (header_of r)
       | None => ASTMResultProcessor.header acc
       end;
     ASTMResultProcessor.patient :=
       match last (filter (record_type_is "P") records) with
       | Some r => Some (patient_of r)
       | None => ASTMResultProcessor.patient acc
       end;
     ASTMResultProcessor.acc_results :=
       ASTMResultProcessor.acc_results acc
       ++ map (fun r => line (PyStr.split "|" r))
            (filter (record_type_is "R") records) |}.

(** The records of a payload: what is left after stripping the frame, cut
    at every carriage return. *)
Definition astm_records (raw_data : string) : list string :=
  PyStr.split PyStr.CR (PyStr.strip astm_framing raw_data).

(** What the ASTM codec decodes, said without the loop: header and patient
    are those of the last [H] and of the last [P] record, the result lines
    those of the [R] records in order. *)
Definition astm_decoded (clk : Clock) (records : list string) : Processed :=
  {| message_id :=
       match last (filter (record_type_is "H") records) with
       | Some r => ASTMResultProcessor.header_message_id (header_of r)
       | None => ""
       end;
     message_datetime := now_iso clk;
     patient_id :=
       match last (filter (record_type_is "P") records) with
       | Some r => ASTMResultProcessor.id (patient_of r)
       | None => ""
       end;
     patient_name :=
       match last (filter (record_type_is "P") records) with
       | Some r => ASTMResultProcessor.name (patient_of r)
       | None => ""
       end;
     results :=
       map (fun r => line (PyStr.split "|" r))
         (filter (record_type_is "R") records) |}.

(** Two patients in one message, each followed by a result. *)
Definition two_patients : string :=
  astm_frame
    ("H|\^&|||LIS|MSG7" +:+ PyStr.chr PyStr.CR
     +:+ "P|1||PT001" +:+ PyStr.chr PyStr.CR
     +:+ "R|1|GLU|95|mg/dL|70-110|N||F" +:+ PyStr.chr PyStr.CR
     +:+ "P|2||PT002" +:+ PyStr.chr PyStr.CR
     +:+ "R|1|HGB|14.2|g/dL|12-16|N||F" +:+ PyStr.chr PyStr.CR).

(** ** The equipment endpoints ([app/api/endpoints/equipment.py])

    The handlers of [POST /{equipment_id}/connect] and
    [POST /{equipment_id}/disconnect], once the permission dependency has
    let the request through.  A task given to [BackgroundTasks] runs after
    the response has been built. *)

(** The columns of an [Equipment] row that the connect endpoint copies into
    [config] besides protocol and connection type; a NULL column is [None]. *)
Record Wiring : Type := {
  col_ip_address : PyVal;
  col_port : PyVal;
  col_com_port : PyVal;
  col_baud_rate : PyVal;
  col_data_bits : PyVal;
  col_parity : PyVal;
  col_stop_bits : PyVal
}.

(** The process: the store the services share and the listener tasks that
    are running on the event loop. *)
Record Server : Type := {
  shared : World;
  tasks : list Task
}.

#[global] Instance Equipment_eq_dec : EqDecision Equipment.
Proof. solve_decision. Defined.
#[global] Instance ResultProcessor_eq_dec : EqDecision ResultProcessor.
Proof. solve_decision. Defined.
#[global] Instance Task_eq_dec : EqDecision Task.
Proof. solve_decision. Defined.

Module Api.

Section Endpoints.

(** The remaining columns of each row. *)
Variable columns : Equipment -> Wiring.

(** The [config] dict of the connect endpoint: all nine keys, always. *)
Definition config (equipment : Equipment) : gmap string PyVal :=
  list_to_map
    [("connection_type", VConnection (eq_connection_type equipment));
     ("protocol", VProtocol (eq_protocol equipment));
     ("ip_address", col_ip_address (columns equipment));
     ("port", col_port (columns equipment));
     ("com_port", col_com_port (columns equipment));
     ("baud_rate", col_baud_rate (columns equipment));
     ("data_bits", col_data_bits (columns equipment));
     ("parity", col_parity (columns equipment));
     ("stop_bits", col_stop_bits (columns equipment))].

(** [ResultHandler(db, equipment_manager)]: every request builds its own
    handler, whose table of listeners starts empty. *)
Definition new_handler (w : World) : World := set_listeners ∅ w.

(** The task a handler holds for the id, if any. *)
Definition held (handler : World) (equipment_id : Z) : list Task :=
  match active_listeners handler !! equipment_id with
  | Some task => [task]
  | None => []
  end.

(** The request is over: the handler and its table are dropped, the rest of
    the store stays. *)
Definition drop_handler (before handler : World) : World :=
  set_listeners (active_listeners before) handler.

(** [connect_equipment(equipment_id, ...)] *)
Definition connect_equipment (opens : EquipmentInterface -> Result unit)
    (equipment_id : Z) (sv : Server) : Result string * Server :=
  match ResultHandler.query (shared sv) equipment_id with
  | None => (Raise (HTTPException 404 "Equipment not found"), sv)
  | Some equipment =>
      match EquipmentManager.connect_equipment opens equipment_id
              (config equipment) (shared sv) with
      | (Raise e, w1) =>
          (Raise (HTTPException 500 (str_exn e)),
           {| shared := w1; tasks := tasks sv |})
      | (Ok _, w1) =>
          let handler :=
            (ResultHandler.start_listening equipment_id (new_handler w1)).2 in
          (Ok ("Successfully connected to equipment " +:+ show_Z equipment_id
               +:+ " and started result listening"),
           {| shared := drop_handler w1 handler;
              tasks := tasks sv ++ held handler equipment_id |})
      end
  end.

(** [disconnect_equipment(equipment_id, ...)]: the registry entry goes
    first; [stop_listening] runs afterwards, on the handler of this
    request, and cancels the task that handler holds for the id. *)
Definition disconnect_equipment (closes : Result unit) (equipment_id : Z)
    (sv : Server) : Result string * Server :=
  match EquipmentManager.disconnect_equipment closes equipment_id (shared sv)
  with
  | (Raise e, w1) =>
      (Raise (HTTPException 500 (str_exn e)),
       {| shared := w1; tasks := tasks sv |})
  | (Ok _, w1) =>
      let handler := new_handler w1 in
      (Ok ("Successfully disconnected equipment " +:+ show_Z equipment_id),
       {| shared :=
            drop_handler w1 (ResultHandler.stop_listening equipment_id handler);
          tasks :=
            filter (fun task => task ∉ held handler equipment_id) (tasks sv) |})
  end.

End Endpoints.

End Api.

(** The wiring of an instrument reached over Ethernet: address and port
    filled in, the serial columns NULL. *)
Definition ethernet_wiring : Equipment -> Wiring :=
  fun _ =>
    {| col_ip_address := VStr "10.0.0.5"; col_port := VInt 5000;
       col_com_port := VNone; col_baud_rate := VNone; col_data_bits := VNone;
       col_parity := VNone; col_stop_bits := VNone |}.

(** An ASTM instrument whose row says [ETHERNET]. *)
Definition ethernet_row : Equipment :=
  {| eq_id := 5; eq_protocol := ASTM; eq_connection_type := ETHERNET;
     eq_communication_type := BIDIRECTIONAL; eq_result_endpoint := None;
     eq_polling_interval := None |}.

(** A server with that one row, nothing connected and no task running. *)
Definition server0 : Server :=
  {| shared := world0 [ethernet_row]; tasks := [] |}.

(** The body of the ASTM request for a patient: a header and a query
    record. *)
Definition astm_query_body (patient_id : string) : string :=
  "H|\^&|||LIS|LAB||" +:+ patient_id +:+ "||P|1" +:+ PyStr.chr PyStr.CR
  +:+ "Q|1|" +:+ patient_id +:+ "^ALL||ALL" +:+ PyStr.chr PyStr.CR.

(** The text of item [j] of field [i] of a segment. *)
Definition item_text (seg : Hl7.node) (i j : nat) : Result string :=
  f ← Hl7.getitem seg i; x ← Hl7.getitem f j; Ok (Hl7.str x).

(** A result line that carries the items of an [OBX] segment: code and name
    are items 0 and 1 of field 3, the others item 0 of their field. *)
Definition obx_line (obx : Hl7.node) (r : ResultLine) : Prop :=
  item_text obx 3 0 = Ok (test_code r)
  /\ (exists n, item_text obx 3 1 = Ok n /\ test_name r = Some n)
  /\ item_text obx 5 0 = Ok (value r)
  /\ item_text obx 6 0 = Ok (units r)
  /\ item_text obx 7 0 = Ok (reference_range r)
  /\ (exists f, item_text obx 8 0 = Ok f /\ flags r = Some f)
  /\ item_text obx 11 0 = Ok (status r).

(** * Properties *)

(** ** Strings and lists *)

Lemma split_nonempty sep s : PyStr.split sep s <> [].
Proof.
  destruct s as [|c r]; simpl; [discriminate|].
  destruct (Ascii.eqb c sep); [discriminate|].
  destruct (PyStr.split sep r); discriminate.
Qed.

Lemma index_lookup {A} (l : list A) i :
  i < length l -> exists a, PyStr.index l i = Ok a /\ l !! i = Some a.
Proof.
  intros H. unfold PyStr.index.
  destruct (lookup_lt_is_Some_2 l i H) as [a Ha].
  rewrite Ha. eauto.
Qed.

(** ** The ASTM codec *)

Section ASTM.
Import ASTMResultProcessor.

(** The guarded access is total: the field, or the empty string. *)
Lemma field_or_empty_spec fields i :
  field_or_empty fields i = Ok (default "" (fields !! i)).
Proof.
  unfold field_or_empty. case_decide as H.
  - destruct (index_lookup fields i H) as (a & -> & ->). reflexivity.
  - rewrite lookup_ge_None_2 by lia. reflexivity.
Qed.

Lemma field_beyond fields i : length fields <= i -> field fields i = "".
Proof. intros H. unfold field. by rewrite lookup_ge_None_2. Qed.

Lemma header_record_spec fields :
  header_record fields
  = Ok {| sender := field fields 4; header_message_id := field fields 5 |}.
Proof. unfold header_record. by rewrite !field_or_empty_spec. Qed.

Lemma patient_record_spec fields :
  patient_record fields
  = Ok {| id := field fields 3; name := field fields 4 |}.
Proof. unfold patient_record. by rewrite !field_or_empty_spec. Qed.

Lemma result_record_spec fields : result_record fields = Ok (line fields).
Proof. unfold result_record. by rewrite !field_or_empty_spec. Qed.

Lemma step_total acc record :
  exists acc', step acc record = Ok acc'
    /\ acc_results acc'
       = acc_results acc
         ++ (if is_result record then [line (PyStr.split "|" record)]
             else []).
Proof.
  unfold step. destruct record as [|c r].
  - eexists; split; [reflexivity|]. simpl. by rewrite app_nil_r.
  - rewrite decide_False by discriminate. cbn [PyStr.char_at String.get].
    cbn [mbind Result_bind]. unfold PyStr.chr.
    rewrite header_record_spec, patient_record_spec, result_record_spec.
    cbn [mbind Result_bind is_result].
    destruct (Ascii.eqb_spec c "R") as [->|Hr].
    + rewrite decide_False by discriminate.
      rewrite decide_False by discriminate.
      rewrite decide_True by reflexivity.
      eexists; split; reflexivity.
    + repeat case_decide; try (eexists; split; [reflexivity|]; simpl;
                               by rewrite app_nil_r).
      congruence.
Qed.

Lemma loop_total records : forall acc,
  exists acc', loop acc records = Ok acc'
    /\ acc_results acc'
       = acc_results acc
         ++ map (fun r => line (PyStr.split "|" r)) (filter is_result records).
Proof.
  induction records as [|record rest IH]; intros acc.
  - exists acc. split; [reflexivity|]. simpl. by rewrite app_nil_r.
  - destruct (step_total acc record) as (acc1 & Hs & Hr).
    destruct (IH acc1) as (acc2 & Hl & Hr2).
    exists acc2. split.
    + simpl. rewrite Hs. exact Hl.
    + rewrite Hr2, Hr. rewrite filter_cons.
      destruct (is_result record); simpl; by rewrite <- app_assoc.
Qed.

End ASTM.

(** C4, as amended.  The ASTM scenario decodes to patient id [PT002] and
    exactly one result line with test code [HGB], value [14.2], units
    [g/dL], reference range [12-16], empty flags and an empty status: the
    record has eight fields, [F] is field 7, and the codec reads the status
    from field 8.  The message id is field 5 of the header, [LAB]. *)
Theorem astm_scenario_decodes (clk : Clock) :
  ASTMResultProcessor.process_result clk scenario_astm
  = Ok {| message_id := "LAB";
          message_datetime := now_iso clk;
          patient_id := "PT002";
          patient_name := "";
          results := [ {| test_code := "HGB"; test_name := None;
                          value := "14.2"; units := "g/dL";
                          reference_range := "12-16"; flags := Some "";
                          status := "" |} ] |}.
Proof. reflexivity. Qed.

(** C4 as the specification words it does not hold: the one result line of
    the scenario does not have status [F]. *)
Lemma astm_scenario_status_not_F :
  ~ exists p r,
      ASTMResultProcessor.process_result clock0 scenario_astm = Ok p
      /\ patient_id p = "PT002"
      /\ results p = [r]
      /\ test_code r = "HGB" /\ value r = "14.2" /\ units r = "g/dL"
      /\ status r = "F".
Proof.
  intros (p & r & Hp & _ & Hr & _ & _ & _ & Hs).
  vm_compute in Hp. injection Hp as <-.
  simpl in Hr. injection Hr as <-. discriminate Hs.
Qed.

(** C8.  Decoding an ASTM message never raises, whatever the records hold;
    its result lines are those of the records that start with [R], in
    order, each attribute being the field at its position or the empty
    string when the record has no such field; the same holds for the
    header and patient attributes. *)
Theorem astm_fields_default_to_empty :
  (forall clk raw_data, exists p,
      ASTMResultProcessor.process_result clk raw_data = Ok p
      /\ results p
         = map (fun r => line (PyStr.split "|" r))
             (filter is_result
                (PyStr.split PyStr.CR
                   (PyStr.strip [PyStr.STX; PyStr.ETX; PyStr.CR; PyStr.LF]
                      raw_data))))
  /\ (forall fields,
        ASTMResultProcessor.header_record fields
        = Ok {| ASTMResultProcessor.sender := field fields 4;
                ASTMResultProcessor.header_message_id := field fields 5 |}
        /\ ASTMResultProcessor.patient_record fields
           = Ok {| ASTMResultProcessor.id := field fields 3;
                   ASTMResultProcessor.name := field fields 4 |}
        /\ ASTMResultProcessor.result_record fields = Ok (line fields))
  /\ (forall fields i, length fields <= i ->
        ASTMResultProcessor.field_or_empty fields i = Ok ""
        /\ field fields i = "").
Proof.
  split; [|split].
  - intros clk raw_data. unfold ASTMResultProcessor.process_result.
    destruct (loop_total
                (PyStr.split PyStr.CR
                   (PyStr.strip [PyStr.STX; PyStr.ETX; PyStr.CR; PyStr.LF]
                      raw_data)) ASTMResultProcessor.init)
      as (acc & Hl & Hr).
    rewrite Hl. eexists. split; [reflexivity|]. exact Hr.
  - intros fields.
    rewrite header_record_spec, patient_record_spec, result_record_spec.
    auto.
  - intros fields i H. rewrite field_or_empty_spec.
    fold (field fields i). by rewrite field_beyond.
Qed.

(** A record with two fields: every attribute read past them is empty. *)
Lemma astm_fields_default_to_empty_witness :
  length ["R"; "1"] <= 2
  /\ ASTMResultProcessor.field_or_empty ["R"; "1"] 2 = Ok ""
  /\ ASTMResultProcessor.result_record ["R"; "1"]
     = Ok {| test_code := ""; test_name := None; value := ""; units := "";
             reference_range := ""; flags := Some ""; status := "" |}.
Proof.
  destruct astm_fields_default_to_empty as (_ & Hrec & Hdef).
  split; [simpl; lia|]. split.
  - apply (Hdef ["R"; "1"] 2). simpl. lia.
  - apply (Hrec ["R"; "1"]).
Defined.

(** ** The HL7 codec *)

Lemma mapM_length {A B} (f : A -> Result B) l bs :
  mapM f l = Ok bs -> length bs = length l.
Proof.
  revert bs. induction l as [|a l IH]; intros bs; simpl.
  - by intros [= <-].
  - destruct (f a) as [b|e]; simpl; [|discriminate].
    destruct (mapM f l) as [bs'|e]; simpl; [|discriminate].
    intros [= <-]. simpl. f_equal. by apply IH.
Qed.

Lemma split_without_separator sep s :
  PyStr.contains sep s = false -> PyStr.split sep s = [s].
Proof.
  induction s as [|c r IH]; simpl; [done|].
  rewrite Ascii.eqb_sym. intros [Hc Hr]%orb_false_elim.
  rewrite Hc, (IH Hr). reflexivity.
Qed.

Section HL7.
Import Hl7 HL7ResultProcessor.

(** [str(x if x else '')] is [str(x)]: what is falsy prints as the empty
    string. *)
Lemma item_str_spec seg i j :
  item_str seg i j = (f ← getitem seg i; x ← getitem f j; Ok (str x)).
Proof.
  unfold item_str. destruct (getitem seg i) as [f|e]; simpl; [|done].
  destruct (getitem f j) as [x|e]; simpl; [|done].
  destruct x as [s|sep [|y items]]; simpl; try done.
  destruct (String.eqb_spec s ""); simpl; congruence.
Qed.

(** A field text without the repetition separator parses to a field with
    exactly one item, whatever else it holds. *)
Lemma field_without_repetition rep rest text :
  PyStr.contains rep text = false ->
  exists x, split_below (rep :: rest) text = Cont (PyStr.chr rep) [x].
Proof.
  intros H. cbn [split_below].
  destruct (applies (rep :: rest) text); [|eauto].
  rewrite (split_without_separator _ _ H). simpl. eauto.
Qed.

(** An [OBX] segment whose field 3 holds one item is rejected: the codec
    asks for item 1 of the field. *)
Lemma obx_single_item_rejected obx sep x :
  getitem obx 3 = Ok (Cont sep [x]) ->
  obx_result obx = Raise (IndexError "list index out of range").
Proof.
  intros H. unfold obx_result. rewrite !item_str_spec, H. reflexivity.
Qed.

(** When decoding succeeds there is one result line per [OBX] segment, in
    the order of the segments. *)
Lemma process_message_results message p :
  process_message message = Ok p ->
  exists obxs,
    segments message "OBX" = Ok obxs
    /\ mapM obx_result obxs = Ok (results p)
    /\ length (results p) = length obxs.
Proof.
  unfold process_message. intros H.
  destruct (segment message "PID") as [pid|]; simpl in H; [|done].
  destruct (item_str pid 3 0); simpl in H; [|done].
  destruct (item_str pid 5 0); simpl in H; [|done].
  destruct (segments message "OBX") as [obxs|]; simpl in H; [|done].
  destruct (mapM obx_result obxs) as [rs|] eqn:Hrs; simpl in H; [|done].
  destruct (segment message "MSH") as [msh|]; simpl in H; [|done].
  destruct (getitem msh 10); simpl in H; [|done].
  destruct (getitem msh 7); simpl in H; [|done].
  injection H as <-. simpl.
  exists obxs. split; [done|]. split; [done|].
  by apply mapM_length in Hrs.
Qed.

End HL7.

(** C2, at the HL7 scenario of the specification.  The message has one
    [OBX] segment whose field 3 is [GLU^Glucose]; parsed, that field holds
    one repetition, the codec indexes the field at 1 for the test name, and
    decoding ends in the 400 error instead of one result line. *)
Theorem hl7_scenario_rejected :
  HL7ResultProcessor.process_result scenario_hl7
  = Raise (HTTPException 400
             "Error processing HL7 message: list index out of range").
Proof. vm_compute. reflexivity. Qed.

(** ** Acknowledgements *)

Lemma append_cons (c : ascii) (s1 s2 : string) :
  String c s1 +:+ s2 = String c (s1 +:+ s2).
Proof. reflexivity. Qed.

Lemma append_assoc (s1 s2 s3 : string) :
  (s1 +:+ s2) +:+ s3 = s1 +:+ (s2 +:+ s3).
Proof.
  induction s1 as [|c s1 IH]; [reflexivity|].
  rewrite !append_cons. f_equal. exact IH.
Qed.

(** C7, as amended.  For every message id [m], when the codec was created
    for bidirectional-with-acknowledgment communication, the HL7
    [send_acknowledgment] returns an ACK-type message carrying [m] as its
    control id and acknowledgment code [AA] in its MSA segment. *)
Theorem hl7_ack_when_required (ct : CommunicationType) (clk : Clock)
    (m : string) :
  ct = BIDIRECTIONAL_WITH_ACK ->
  exists ack,
    HL7ResultProcessor.send_acknowledgment ct clk m = RetStr ack
    /\ hl7_ack m ack.
Proof.
  intros ->. eexists. split; [reflexivity|].
  exists (now_compact clk), "{message_id}|Message received successfully".
  cbn [PyStr.join]. rewrite !append_assoc. reflexivity.
Qed.

Lemma hl7_ack_when_required_witness :
  exists ack,
    HL7ResultProcessor.send_acknowledgment BIDIRECTIONAL_WITH_ACK clock0 "MSG1"
    = RetStr ack
    /\ hl7_ack "MSG1" ack.
Proof.
  apply (hl7_ack_when_required BIDIRECTIONAL_WITH_ACK clock0 "MSG1").
  reflexivity.
Defined.

(** C7 as the specification words it does not hold for every codec: one
    created for a unidirectional instrument builds no message. *)
Lemma hl7_ack_not_built_when_unidirectional :
  ~ exists ack,
      HL7ResultProcessor.send_acknowledgment UNIDIRECTIONAL clock0 "MSG1"
      = RetStr ack
      /\ hl7_ack "MSG1" ack.
Proof. intros (ack & H & _). discriminate H. Qed.

(** C10.  When the communication type is not
    bidirectional-with-acknowledgment, [send_acknowledgment] of the HL7,
    ASTM and FHIR codecs returns [True]; no acknowledgement text is built
    and nothing is posted. *)
Theorem acknowledgment_skipped (ct : CommunicationType) (clk : Clock)
    (endpoint : string) (post : Result Z) (m : string) :
  ct <> BIDIRECTIONAL_WITH_ACK ->
  HL7ResultProcessor.send_acknowledgment ct clk m = RetBool true
  /\ ASTMResultProcessor.send_acknowledgment ct m = RetBool true
  /\ HL7FHIRResultProcessor.send_acknowledgment ct endpoint post m
     = (RetBool true, []).
Proof.
  intros H.
  unfold HL7ResultProcessor.send_acknowledgment,
    ASTMResultProcessor.send_acknowledgment,
    HL7FHIRResultProcessor.send_acknowledgment.
  rewrite !decide_True by done. auto.
Qed.

Lemma acknowledgment_skipped_witness :
  HL7ResultProcessor.send_acknowledgment BIDIRECTIONAL clock0 "MSG1"
  = RetBool true
  /\ ASTMResultProcessor.send_acknowledgment BIDIRECTIONAL "MSG1"
     = RetBool true
  /\ HL7FHIRResultProcessor.send_acknowledgment BIDIRECTIONAL
       "http://lab/fhir" (Ok 200%Z) "MSG1"
     = (RetBool true, []).
Proof.
  apply (acknowledgment_skipped BIDIRECTIONAL clock0 "http://lab/fhir"
           (Ok 200%Z) "MSG1").
  discriminate.
Defined.

(** ** The connection registry *)

Section Registry.
Import EquipmentManager.

Lemma connect_equipment_opened opens id cfg w i :
  make_interface cfg = Ok i ->
  opens i = Ok () ->
  exists w',
    connect_equipment opens id cfg w
    = (Ok {| oid := allocated w; interface := i |}, w')
    /\ active_connections w'
       = <[id := {| oid := allocated w; interface := i |}]>
           (active_connections w)
    /\ allocated w' = S (allocated w).
Proof.
  intros Hi Ho. unfold connect_equipment, interface_connect.
  rewrite Hi, Ho. eexists. split; [reflexivity|]. split; reflexivity.
Qed.

Lemma connect_equipment_failed opens id cfg w :
  (forall e, make_interface cfg = Raise e ->
     exists w', connect_equipment opens id cfg w = (Raise e, w')
                /\ active_connections w' = active_connections w)
  /\ (forall i e, make_interface cfg = Ok i -> opens i = Raise e ->
        exists w', connect_equipment opens id cfg w = (Raise e, w')
                   /\ active_connections w' = active_connections w).
Proof.
  split.
  - intros e He. unfold connect_equipment. rewrite He.
    eexists. split; reflexivity.
  - intros i e Hi Ho. unfold connect_equipment, interface_connect.
    rewrite Hi, Ho. eexists. split; reflexivity.
Qed.

End Registry.

(** C1, as amended.  A second [connect_equipment] for an id that is already
    registered is not rejected.  When the transport object is built and
    opens, the call returns the new interface and the registry maps the id
    to it in place of the first one, with the same set of ids as before
    (one entry per id, no duplicate).  When building or opening the
    transport raises, that exception propagates and the registry is as it
    was. *)
Theorem connect_again_replaces
    (opens : EquipmentInterface -> Result unit) (id : Z)
    (cfg : gmap string PyVal) (w : World) (c1 : Connection) :
  active_connections w !! id = Some c1 ->
  oid c1 < allocated w ->
  let out := EquipmentManager.connect_equipment opens id cfg w in
  match EquipmentManager.make_interface cfg with
  | Raise e =>
      out.1 = Raise e /\ active_connections out.2 = active_connections w
  | Ok i =>
      match opens i with
      | Raise e =>
          out.1 = Raise e /\ active_connections out.2 = active_connections w
      | Ok _ =>
          let c2 := {| oid := allocated w; interface := i |} in
          out.1 = Ok c2
          /\ active_connections out.2 !! id = Some c2
          /\ c2 <> c1
          /\ dom (active_connections out.2) = dom (active_connections w)
      end
  end.
Proof.
  intros Hc1 Hfresh out. subst out.
  destruct (EquipmentManager.make_interface cfg) as [i|e] eqn:Hi.
  - destruct (opens i) as [[]|e] eqn:Ho.
    + destruct (connect_equipment_opened opens id cfg w i Hi Ho)
        as (w' & -> & Hreg & _).
      cbn [fst snd]. rewrite Hreg. split; [done|]. split.
      * apply lookup_insert_eq.
      * split.
        -- intros <-. simpl in Hfresh. lia.
        -- rewrite dom_insert_L.
           apply subseteq_union_1_L, singleton_subseteq_l, elem_of_dom.
           eauto.
    + destruct (connect_equipment_failed opens id cfg w) as [_ H].
      destruct (H i e Hi Ho) as (w' & -> & Hreg). done.
  - destruct (connect_equipment_failed opens id cfg w) as [H _].
    destruct (H e Hi) as (w' & -> & Hreg). done.
Qed.

Lemma connect_again_replaces_witness :
  let out :=
    EquipmentManager.connect_equipment always_opens 1 (config_network ASTM)
      world_connected in
  match EquipmentManager.make_interface (config_network ASTM) with
  | Raise e =>
      out.1 = Raise e
      /\ active_connections out.2 = active_connections world_connected
  | Ok i =>
      match always_opens i with
      | Raise e =>
          out.1 = Raise e
          /\ active_connections out.2 = active_connections world_connected
      | Ok _ =>
          let c2 := {| oid := allocated world_connected; interface := i |} in
          out.1 = Ok c2
          /\ active_connections out.2 !! 1%Z = Some c2
          /\ c2 <> first_connection
          /\ dom (active_connections out.2)
             = dom (active_connections world_connected)
      end
  end.
Proof.
  apply (connect_again_replaces always_opens 1 (config_network ASTM)
           world_connected first_connection).
  - vm_compute. reflexivity.
  - vm_compute. lia.
Defined.

(** C1 as the specification words it does not hold: the second connect for
    equipment 1 returns a new interface instead of failing, and the
    registry then holds that one, not the first. *)
Lemma second_connect_not_rejected :
  let out :=
    EquipmentManager.connect_equipment always_opens 1 (config_network ASTM)
      world_connected in
  active_connections world_connected !! 1%Z = Some first_connection
  /\ ~ ((exists e, out.1 = Raise e)
        /\ active_connections out.2 !! 1%Z = Some first_connection).
Proof.
  split; [vm_compute; reflexivity|].
  intros [[e He] _]. vm_compute in He. discriminate He.
Qed.

Lemma second_connect_result :
  let out :=
    EquipmentManager.connect_equipment always_opens 1 (config_network ASTM)
      world_connected in
  out.1 = Ok second_connection
  /\ active_connections out.2 !! 1%Z = Some second_connection
  /\ size (active_connections out.2) = 1.
Proof. vm_compute. auto. Qed.



(** ** Protocols without a codec *)

(** C5, as amended.  For a protocol other than HL7, ASTM and HL7-FHIR,
    [connect_equipment] does not look at the protocol: it returns and
    registers the transport whenever the transport is built and opens.  The
    protocol is rejected by [start_listening], where [create_processor]
    raises [ValueError] before any listener task is registered, hence
    before a message is read. *)
Theorem unsupported_protocol_rejected_when_listening (p : ProtocolType) :
  ~ has_codec p ->
  (forall opens id cfg w i,
      cfg !! "protocol" = Some (VProtocol p) ->
      EquipmentManager.make_interface cfg = Ok i ->
      opens i = Ok () ->
      let out := EquipmentManager.connect_equipment opens id cfg w in
      out.1 = Ok {| oid := allocated w; interface := i |}
      /\ active_connections out.2 !! id
         = Some {| oid := allocated w; interface := i |})
  /\ (forall id w equipment,
        ResultHandler.query w id = Some equipment ->
        eq_protocol equipment = p ->
        active_listeners w !! id = None ->
        ResultHandler.start_listening id w
        = (Raise (ValueError
                    ("Unsupported protocol: " +:+ ProtocolType_value p)), w)).
Proof.
  intros Hp. split.
  - intros opens id cfg w i _ Hi Ho out. subst out.
    destruct (connect_equipment_opened opens id cfg w i Hi Ho)
      as (w' & -> & Hreg & _).
    cbn [fst snd]. rewrite Hreg. split; [done|]. apply lookup_insert_eq.
  - intros id w equipment Hq <- Hl. unfold ResultHandler.start_listening.
    rewrite Hq, Hl.
    destruct (eq_protocol equipment) eqn:E; try reflexivity;
      exfalso; apply Hp; unfold has_codec; auto.
Qed.

Lemma unsupported_protocol_rejected_when_listening_witness :
  (EquipmentManager.connect_equipment always_opens 3 (config_network DICOM)
     (world0 [equipment_row 3 DICOM BIDIRECTIONAL])).1
  = Ok {| oid := 0;
          interface := NetworkEquipment (VStr "10.0.0.5") (VInt 5000)
                         (VProtocol DICOM) |}
  /\ ResultHandler.start_listening 3
       (world0 [equipment_row 3 DICOM BIDIRECTIONAL])
     = (Raise (ValueError "Unsupported protocol: DICOM"),
        world0 [equipment_row 3 DICOM BIDIRECTIONAL]).
Proof.
  destruct (unsupported_protocol_rejected_when_listening DICOM)
    as [Hconnect Hlisten].
  { intros [H|[H|H]]; discriminate H. }
  split.
  - apply (Hconnect always_opens 3%Z (config_network DICOM)
             (world0 [equipment_row 3 DICOM BIDIRECTIONAL])
             (NetworkEquipment (VStr "10.0.0.5") (VInt 5000)
                (VProtocol DICOM)));
      vm_compute; reflexivity.
  - apply (Hlisten 3%Z (world0 [equipment_row 3 DICOM BIDIRECTIONAL])
             (equipment_row 3 DICOM BIDIRECTIONAL));
      vm_compute; reflexivity.
Defined.

(** C5 as the specification words it does not hold: connecting an
    instrument configured for DICOM does not fail. *)
Lemma connect_accepts_unsupported_protocol :
  ~ has_codec DICOM
  /\ ~ exists e,
        (EquipmentManager.connect_equipment always_opens 3
           (config_network DICOM)
           (world0 [equipment_row 3 DICOM BIDIRECTIONAL])).1
        = Raise e.
Proof.
  split.
  - intros [H|[H|H]]; discriminate H.
  - intros [e He]. vm_compute in He. discriminate He.
Qed.

(** ** Requests to the instrument *)

(** C3.  For an equipment row whose communication type is unidirectional,
    [request_results] raises [ValueError('Cannot request results from
    unidirectional equipment')] whatever the patient id is, and leaves the
    world as it was: no command is built, nothing is written to a
    transport, nothing is logged. *)
Theorem request_results_unidirectional (clk : Clock) (raw : Result string)
    (equipment_id : Z) (patient_id : option string) (w : World)
    (equipment : Equipment) :
  ResultHandler.query w equipment_id = Some equipment ->
  eq_communication_type equipment = UNIDIRECTIONAL ->
  ResultHandler.request_results clk raw equipment_id patient_id w
  = (Raise (ValueError "Cannot request results from unidirectional equipment"),
     w).
Proof.
  intros Hq Hc. unfold ResultHandler.request_results.
  rewrite Hq. by rewrite decide_True.
Qed.

Lemma request_results_unidirectional_witness :
  ResultHandler.request_results clock0 (Ok "") 3 (Some "PT002")
    world_unidirectional
  = (Raise (ValueError "Cannot request results from unidirectional equipment"),
     world_unidirectional).
Proof.
  apply (request_results_unidirectional clock0 (Ok "") 3 (Some "PT002")
           world_unidirectional (equipment_row 3 ASTM UNIDIRECTIONAL));
    vm_compute; reflexivity.
Defined.

(** The same request to a bidirectional instrument does write a frame. *)
Lemma request_results_bidirectional_writes :
  let w :=
    (EquipmentManager.connect_equipment always_opens 3 (config_network ASTM)
       (world0 [equipment_row 3 ASTM BIDIRECTIONAL])).2 in
  let out := ResultHandler.request_results clock0 (Ok "") 3 (Some "PT002") w in
  out.1 = Ok true
  /\ exists frame, trace out.2 = trace w ++ [Written 0 frame].
Proof. vm_compute. split; [reflexivity|]. eexists. reflexivity. Qed.

(** ** The listener loop *)

Section Listener.
Variable fhir_process_result : string -> Result Processed.
Variable fromisoformat : string -> Result string.
Variable repr_processed : Processed -> string.
Variable equipment : Equipment.
Variable processor : ResultProcessor.

#[local] Abbreviation decode := (ResultHandler.process_result fhir_process_result processor).
#[local] Abbreviation row := (ResultHandler.make_row fromisoformat repr_processed equipment).
#[local] Abbreviation turn :=
  (ResultHandler.turn fhir_process_result fromisoformat repr_processed
     equipment processor).
#[local] Abbreviation listen :=
  (ResultHandler.listen_for_results fhir_process_result fromisoformat
     repr_processed equipment processor).



(** Only a cancellation ends the loop. *)
Lemma turn_not_cancelled t w :
  turn_receive t <> Cancelled ->
  turn_sleep t <> Cancelled ->
  (turn t w).1 = Listening.
Proof.
  intros Hr Hs. unfold ResultHandler.turn, ResultHandler.recover.
  destruct (turn_receive t) as [[raw|e]|]; [| |done].
  - case_decide.
    + destruct (ResultHandler.polling equipment); [|done].
      destruct (turn_sleep t); done.
    + destruct (decode (turn_clock t) raw) as [p|e].
      * destruct (ResultHandler.save_results _ _ _ _ _ _) as [[|e] w1].
        -- case_decide; reflexivity.
        -- destruct (turn_sleep t); done.
      * destruct (turn_sleep t); done.
  - destruct (turn_sleep t); done.
Qed.

Lemma listen_not_cancelled turns : forall w,
  Forall (fun t => turn_receive t <> Cancelled
                   /\ turn_sleep t <> Cancelled) turns ->
  (listen turns w).1 = Listening.
Proof.
  induction turns as [|t rest IH]; intros w Hall; [reflexivity|].
  inversion Hall as [|? ? [Hr Hs] Hrest]; subst.
  cbn [ResultHandler.listen_for_results].
  pose proof (turn_not_cancelled t w Hr Hs) as Ht.
  destruct (turn t w) as [[] w1]; [|discriminate Ht].
  by apply IH.
Qed.

(** On the manager as written every turn fails at the receive: the loop
    keeps going round and stores nothing. *)
Lemma listen_without_receive turns : forall w,
  Forall (fun t =>
            turn_receive t
            = Resumed (Raise EquipmentManager.no_receive_data_from_equipment)
            /\ turn_sleep t = Resumed ()) turns ->
  (listen turns w).1 = Listening
  /\ committed (listen turns w).2 = committed w.
Proof.
  induction turns as [|t rest IH]; intros w Hall; [done|].
  inversion Hall as [|? ? [Hr Hs] Hrest]; subst.
  cbn [ResultHandler.listen_for_results].
  unfold ResultHandler.turn, ResultHandler.recover. rewrite Hr, Hs.
  destruct (IH (emit (recovery equipment
                        EquipmentManager.no_receive_data_from_equipment) w)
              Hrest) as [H1 H2].
  split; [exact H1 | exact H2].
Qed.


End Listener.


(** * Further properties of the code *)

(** ** Stripping and framing *)

Lemma lstrip_all_in chars s : all_in chars s = true -> PyStr.lstrip chars s = "".
Proof.
  induction s as [|c r IH]; simpl; [done|].
  intros [Hc Hr]%andb_prop. rewrite Hc. by apply IH.
Qed.

Lemma rstrip_all_in chars s : all_in chars s = true -> PyStr.rstrip chars s = "".
Proof.
  induction s as [|c r IH]; simpl; [done|].
  intros [Hc Hr]%andb_prop. rewrite (IH Hr), Hc. reflexivity.
Qed.

Lemma lstrip_app chars s t :
  PyStr.lstrip chars (s +:+ t)
  = if all_in chars s then PyStr.lstrip chars t
    else PyStr.lstrip chars s +:+ t.
Proof.
  induction s as [|c r IH]; [reflexivity|].
  rewrite append_cons. cbn [PyStr.lstrip all_in].
  destruct (PyStr.mem c chars); cbn [andb]; [exact IH|].
  by rewrite append_cons.
Qed.

Lemma rstrip_app chars s t :
  all_in chars t = true -> PyStr.rstrip chars (s +:+ t) = PyStr.rstrip chars s.
Proof.
  intros Ht. induction s as [|c r IH].
  - cbn [String.append]. by rewrite rstrip_all_in.
  - rewrite append_cons. cbn [PyStr.rstrip]. by rewrite IH.
Qed.

(** Characters of the set at either end do not change what [strip] gives. *)
Lemma strip_app chars s t :
  all_in chars t = true -> PyStr.strip chars (s +:+ t) = PyStr.strip chars s.
Proof.
  intros Ht. unfold PyStr.strip. rewrite lstrip_app.
  destruct (all_in chars s) eqn:Hs.
  - by rewrite (lstrip_all_in _ _ Ht), (lstrip_all_in _ _ Hs).
  - by apply rstrip_app.
Qed.

Lemma strip_cons chars c s :
  PyStr.mem c chars = true ->
  PyStr.strip chars (String c s) = PyStr.strip chars s.
Proof. intros H. unfold PyStr.strip. cbn [PyStr.lstrip]. by rewrite H. Qed.

Lemma strip_frame command :
  PyStr.strip astm_framing (astm_frame command)
  = PyStr.strip astm_framing command.
Proof.
  unfold astm_frame, PyStr.chr. rewrite append_cons.
  rewrite strip_cons by reflexivity.
  change ("" +:+ ?x) with x. by rewrite strip_app by reflexivity.
Qed.




Lemma lstrip_clean chars s :
  starts_with_any chars s = false -> PyStr.lstrip chars s = s.
Proof. destruct s as [|c r]; [done|]. simpl. by intros ->. Qed.

Lemma rstrip_clean chars s :
  ends_with_any chars s = false -> PyStr.rstrip chars s = s.
Proof.
  induction s as [|c r IH]; [done|]. cbn [ends_with_any PyStr.rstrip].
  destruct r as [|d r'].
  - intros ->. reflexivity.
  - intros H. by rewrite (IH H).
Qed.

Lemma strip_clean chars s :
  starts_with_any chars s = false ->
  ends_with_any chars s = false ->
  PyStr.strip chars s = s.
Proof.
  intros Hs He. unfold PyStr.strip.
  rewrite (lstrip_clean _ _ Hs). by apply rstrip_clean.
Qed.

(** X1.  The ASTM decoder does not see the frame: a body wrapped as
    [\x02...\x03\r\n] decodes to what the body alone decodes to. *)
Theorem astm_decode_ignores_frame (clk : Clock) (body : string) :
  ASTMResultProcessor.process_result clk (astm_frame body)
  = ASTMResultProcessor.process_result clk body.
Proof.
  unfold ASTMResultProcessor.process_result.
  change [PyStr.STX; PyStr.ETX; PyStr.CR; PyStr.LF] with astm_framing.
  by rewrite strip_frame.
Qed.

(** X2.  On a serial ASTM transport, [send_command] writes the command
    inside the frame, and [receive_data] takes the frame off again: the
    frame of a command that neither starts nor ends with a framing
    character reads back as the command. *)
Theorem serial_astm_frame_round_trip
    (port baud_rate data_bits parity stop_bits : PyVal) (command : string) :
  let i := SerialEquipment port baud_rate (VProtocol ASTM) data_bits parity
             stop_bits in
  (forall oid answer,
      (EquipmentManager.send_command {| oid := oid; interface := i |}
         (Ok answer) command).2
      = [Written oid (astm_frame command)])
  /\ EquipmentManager.receive_data i (Ok (astm_frame command))
     = (Ok (PyStr.strip astm_framing command), [])
  /\ (starts_with_any astm_framing command = false ->
      ends_with_any astm_framing command = false ->
      EquipmentManager.receive_data i (Ok (astm_frame command))
      = (Ok command, [])).
Proof.
  intros i. split; [|split].
  - intros oid answer. reflexivity.
  - cbn [EquipmentManager.receive_data i EquipmentManager.is_protocol].
    rewrite bool_decide_eq_true_2 by done.
    change [PyStr.STX; PyStr.ETX; PyStr.CR; PyStr.LF] with astm_framing.
    by rewrite strip_frame.
  - intros Hs He.
    cbn [EquipmentManager.receive_data i EquipmentManager.is_protocol].
    rewrite bool_decide_eq_true_2 by done.
    change [PyStr.STX; PyStr.ETX; PyStr.CR; PyStr.LF] with astm_framing.
    by rewrite strip_frame, strip_clean.
Qed.

Lemma serial_astm_frame_round_trip_witness :
  EquipmentManager.receive_data (interface (serial_astm 0))
    (Ok (astm_frame "Q|1|PT002^ALL||ALL"))
  = (Ok "Q|1|PT002^ALL||ALL", []).
Proof.
  apply (serial_astm_frame_round_trip (VStr "/dev/ttyUSB0") (VInt 9600)
           (VInt 8) (VStr "N") (VInt 1) "Q|1|PT002^ALL||ALL");
    reflexivity.
Defined.



(** ** More on the registry *)

(** X4.  [disconnect_equipment] never raises, not even when closing the
    transport does; afterwards the id has no entry, every other id has the
    entry it had, and for an id that was not connected nothing changes at
    all. *)
Theorem disconnect_equipment_removes (closes : Result unit) (id : Z)
    (w : World) :
  let out := EquipmentManager.disconnect_equipment closes id w in
  out.1 = Ok ()
  /\ active_connections out.2 !! id = None
  /\ (forall j, j <> id ->
        active_connections out.2 !! j = active_connections w !! j)
  /\ (active_connections w !! id = None -> out.2 = w).
Proof.
  intros out. subst out. unfold EquipmentManager.disconnect_equipment.
  destruct (active_connections w !! id) as [c|] eqn:Hc; cbn [fst snd].
  - split; [done|]. split; [apply lookup_delete_eq|]. split; [|done].
    intros j Hj. cbn. by apply lookup_delete_ne.
  - done.
Qed.

Lemma disconnect_equipment_removes_witness :
  (EquipmentManager.disconnect_equipment (Raise (OSError "port is gone")) 1
     world_connected).1 = Ok ()
  /\ active_connections
       (EquipmentManager.disconnect_equipment (Raise (OSError "port is gone"))
          1 world_connected).2 !! 1%Z = None
  /\ (EquipmentManager.disconnect_equipment (Ok ()) 2 world_connected).2
     = world_connected.
Proof.
  destruct (disconnect_equipment_removes (Raise (OSError "port is gone")) 1
              world_connected) as (H1 & H2 & _ & _).
  destruct (disconnect_equipment_removes (Ok ()) 2 world_connected)
    as (_ & _ & _ & H3).
  split; [exact H1|]. split; [exact H2|].
  apply H3. vm_compute. reflexivity.
Defined.

(** X5.  Connecting an id that has no entry and then disconnecting it gives
    the registry back as it was. *)
Theorem connect_then_disconnect_restores
    (opens : EquipmentInterface -> Result unit) (closes : Result unit)
    (id : Z) (cfg : gmap string PyVal) (w : World) (i : EquipmentInterface) :
  active_connections w !! id = None ->
  EquipmentManager.make_interface cfg = Ok i ->
  opens i = Ok () ->
  let w1 := (EquipmentManager.connect_equipment opens id cfg w).2 in
  active_connections w1 !! id
  = Some {| oid := allocated w; interface := i |}
  /\ active_connections
       (EquipmentManager.disconnect_equipment closes id w1).2
     = active_connections w.
Proof.
  intros Hnone Hi Ho w1. subst w1.
  destruct (connect_equipment_opened opens id cfg w i Hi Ho)
    as (w' & -> & Hreg & _).
  cbn [snd]. split.
  - rewrite Hreg. apply lookup_insert_eq.
  - unfold EquipmentManager.disconnect_equipment.
    rewrite Hreg, lookup_insert_eq. cbn.
    by apply delete_insert_id.
Qed.

Lemma connect_then_disconnect_restores_witness :
  let w1 :=
    (EquipmentManager.connect_equipment always_opens 1 (config_network ASTM)
       (world0 [])).2 in
  active_connections w1 !! 1%Z = Some first_connection
  /\ active_connections
       (EquipmentManager.disconnect_equipment (Ok ()) 1 w1).2
     = active_connections (world0 []).
Proof.
  apply (connect_then_disconnect_restores always_opens (Ok ()) 1
           (config_network ASTM) (world0 [])
           (NetworkEquipment (VStr "10.0.0.5") (VInt 5000) (VProtocol ASTM)));
    vm_compute; reflexivity.
Defined.

(** X6.  [connect_equipment] registers all or nothing: either it returns
    the new interface, registered under the id and nowhere else, or it
    raises, the registry is as before and the failure is the last record
    of the log. *)
Theorem connect_equipment_all_or_nothing
    (opens : EquipmentInterface -> Result unit) (id : Z)
    (cfg : gmap string PyVal) (w : World) :
  let out := EquipmentManager.connect_equipment opens id cfg w in
  (exists c,
      out.1 = Ok c
      /\ active_connections out.2 = <[id := c]> (active_connections w))
  \/ (exists e evs,
        out.1 = Raise e
        /\ active_connections out.2 = active_connections w
        /\ trace out.2
           = trace w ++ evs ++ [EquipmentManager.failed id e]).
Proof.
  intros out. subst out. unfold EquipmentManager.connect_equipment.
  destruct (EquipmentManager.make_interface cfg) as [i|e].
  - unfold EquipmentManager.interface_connect.
    destruct (opens i) as [[]|e]; cbn [fst snd].
    + left. eexists. split; reflexivity.
    + right.
      exists e, [Log ERROR ("Failed to connect to equipment: " +:+ str_exn e)].
      done.
  - right. exists e, []. done.
Qed.

(** ** More on requests and the factory *)

(** X7.  For an equipment row that is not unidirectional,
    [request_results] never raises: it answers [True] or [False].  [True]
    means the protocol is HL7 or ASTM and the id is connected; for an id
    that is not connected the answer is [False] and nothing is handed to a
    transport. *)
Theorem request_results_answers (clk : Clock) (raw : Result string)
    (id : Z) (patient_id : option string) (w : World) (equipment : Equipment) :
  ResultHandler.query w id = Some equipment ->
  eq_communication_type equipment <> UNIDIRECTIONAL ->
  exists b w',
    ResultHandler.request_results clk raw id patient_id w = (Ok b, w')
    /\ active_connections w' = active_connections w
    /\ (b = true ->
        (eq_protocol equipment = HL7 \/ eq_protocol equipment = ASTM)
        /\ is_Some (active_connections w !! id))
    /\ (active_connections w !! id = None ->
        b = false
        /\ exists evs, trace w' = trace w ++ evs
                       /\ Forall (fun ev => ~ is_transport_write ev) evs).
Proof.
  intros Hq Hc. unfold ResultHandler.request_results.
  rewrite Hq, decide_False by done.
  destruct (ResultHandler.build_request_command (eq_protocol equipment) clk
              patient_id) as [command|e] eqn:Hb.
  - assert (Hp : eq_protocol equipment = HL7 \/ eq_protocol equipment = ASTM)
      by (destruct (eq_protocol equipment); try discriminate Hb; auto).
    clear Hb. unfold EquipmentManager.send_command_to_equipment.
    destruct (active_connections w !! id) as [c|] eqn:Hl.
    + destruct (EquipmentManager.send_command c raw command) as [[r|e] evs];
        eexists _, _; (split; [reflexivity|]); (split; [reflexivity|]);
        (split; [intros; try discriminate; eauto | intros; discriminate]).
    + eexists _, _. split; [reflexivity|]. split; [reflexivity|].
      split; [discriminate|]. intros _. split; [reflexivity|].
      cbn. rewrite <- app_assoc. eexists. split; [reflexivity|].
      repeat constructor; simpl; tauto.
  - eexists _, _. split; [reflexivity|]. split; [reflexivity|].
    split; [discriminate|]. intros _. split; [reflexivity|].
    eexists. split; [reflexivity|]. repeat constructor; simpl; tauto.
Qed.

Lemma request_results_answers_witness :
  exists w',
    ResultHandler.request_results clock0 (Ok "") 3 None
      (world0 [equipment_row 3 ASTM BIDIRECTIONAL])
    = (Ok false, w')
    /\ exists evs, trace w' = evs
                   /\ Forall (fun ev => ~ is_transport_write ev) evs.
Proof.
  destruct (request_results_answers clock0 (Ok "") 3 None
              (world0 [equipment_row 3 ASTM BIDIRECTIONAL])
              (equipment_row 3 ASTM BIDIRECTIONAL))
    as (b & w' & Hr & _ & _ & Hn); [reflexivity | discriminate |].
  destruct Hn as (-> & evs & Ht & Hf); [reflexivity|].
  exists w'. split; [exact Hr|]. exists evs. split; [exact Ht | exact Hf].
Defined.

(** X8.  [create_processor] returns a processor exactly for HL7, for ASTM,
    and for HL7-FHIR with a non-empty endpoint; the processor is of the
    class of the protocol and keeps the communication type it was given. *)
Theorem create_processor_supported (p : ProtocolType) (ct : CommunicationType)
    (endpoint : option string) :
  ((exists processor,
       ResultProcessorFactory.create_processor p ct endpoint = Ok processor)
   <-> (p = HL7 \/ p = ASTM
        \/ (p = HL7_FHIR /\ exists e, endpoint = Some e /\ e <> "")))
  /\ (forall processor,
        ResultProcessorFactory.create_processor p ct endpoint = Ok processor ->
        match p with
        | HL7 => processor = HL7Processor ct
        | ASTM => processor = ASTMProcessor ct
        | _ => exists e, endpoint = Some e /\ processor = FHIRProcessor ct e
        end).
Proof.
  split; [split|].
  - intros [processor H]. destruct p; try discriminate H; auto.
    right; right. split; [done|]. cbn in H.
    destruct endpoint as [e|]; [|discriminate H]. exists e. split; [done|].
    intros ->. discriminate H.
  - intros [->|[->|[-> (e & -> & He)]]]; cbn; eauto.
    destruct (String.eqb_spec e ""); [done|]. eauto.
  - intros processor H. destruct p; try discriminate H.
    + by injection H as <-.
    + by injection H as <-.
    + cbn in H. destruct endpoint as [e|]; [|discriminate H]. cbn in H.
      destruct (String.eqb e ""); [discriminate H|]. injection H as <-.
      eauto.
Qed.

Lemma create_processor_supported_witness :
  (exists processor,
      ResultProcessorFactory.create_processor HL7_FHIR BIDIRECTIONAL
        (Some "http://lab/fhir") = Ok processor)
  /\ ~ (exists processor,
          ResultProcessorFactory.create_processor HL7_FHIR BIDIRECTIONAL
            (Some "") = Ok processor)
  /\ ~ (exists processor,
          ResultProcessorFactory.create_processor MODBUS BIDIRECTIONAL None
          = Ok processor).
Proof.
  split; [|split].
  - apply (create_processor_supported HL7_FHIR BIDIRECTIONAL
             (Some "http://lab/fhir")).
    right; right. split; [reflexivity|]. eexists. split; [reflexivity|].
    discriminate.
  - intros H.
    apply (create_processor_supported HL7_FHIR BIDIRECTIONAL (Some "")) in H.
    destruct H as [H|[H|[_ (e & [= <-] & He)]]];
      [discriminate H | discriminate H | by apply He].
  - intros H.
    apply (create_processor_supported MODBUS BIDIRECTIONAL None) in H.
    destruct H as [H|[H|[H _]]]; discriminate H.
Defined.

(** ** Starting and stopping a listener *)

Lemma query_none (w : World) (id : Z) :
  Forall (fun e => eq_id e <> id) (equipment_rows w) ->
  ResultHandler.query w id = None.
Proof.
  unfold ResultHandler.query. induction 1 as [|e rows He _ IH]; [done|].
  simpl. by rewrite bool_decide_eq_false_2.
Qed.

(** X9.  For an id that has no row in [equipment], [start_listening] and
    [request_results] raise [ValueError('Equipment <id> not found')] and
    change nothing. *)
Theorem unknown_equipment_rejected (clk : Clock) (raw : Result string)
    (id : Z) (patient_id : option string) (w : World) :
  Forall (fun e => eq_id e <> id) (equipment_rows w) ->
  ResultHandler.start_listening id w
  = (Raise (ValueError ("Equipment " +:+ show_Z id +:+ " not found")), w)
  /\ ResultHandler.request_results clk raw id patient_id w
     = (Raise (ValueError ("Equipment " +:+ show_Z id +:+ " not found")), w).
Proof.
  intros H. unfold ResultHandler.start_listening,
    ResultHandler.request_results. by rewrite (query_none w id H).
Qed.

Lemma unknown_equipment_rejected_witness :
  ResultHandler.start_listening 4
    (world0 [equipment_row 3 ASTM BIDIRECTIONAL])
  = (Raise (ValueError "Equipment 4 not found"),
     world0 [equipment_row 3 ASTM BIDIRECTIONAL])
  /\ ResultHandler.request_results clock0 (Ok "") 4 None
       (world0 [equipment_row 3 ASTM BIDIRECTIONAL])
     = (Raise (ValueError "Equipment 4 not found"),
        world0 [equipment_row 3 ASTM BIDIRECTIONAL]).
Proof.
  apply (unknown_equipment_rejected clock0 (Ok "") 4 None
           (world0 [equipment_row 3 ASTM BIDIRECTIONAL])).
  repeat constructor. discriminate.
Defined.

(** X10.  [start_listening] is idempotent: once it has returned for an id,
    a second call only logs a warning and the task registered for the id
    stays the one it was. *)
Theorem start_listening_twice (id : Z) (w w1 : World) :
  ResultHandler.start_listening id w = (Ok (), w1) ->
  exists task,
    active_listeners w1 !! id = Some task
    /\ (forall task0, active_listeners w !! id = Some task0 -> task = task0)
    /\ ResultHandler.start_listening id w1
       = (Ok (),
          emit [Log WARNING ("Already listening to equipment " +:+ show_Z id)]
            w1).
Proof.
  unfold ResultHandler.start_listening, ResultHandler.query.
  destruct (find _ (equipment_rows w)) as [equipment|] eqn:Hq;
    [|discriminate].
  destruct (active_listeners w !! id) as [task0|] eqn:Hl.
  - intros [= <-]. exists task0. cbn. rewrite Hq, Hl.
    split; [done|]. split; [by intros ? [= <-]|done].
  - destruct (ResultProcessorFactory.create_processor _ _ _) as [processor|];
      [|discriminate].
    intros [= <-]. eexists. cbn. rewrite Hq, lookup_insert_eq.
    split; [done|]. split; [discriminate|done].
Qed.

Lemma start_listening_twice_witness :
  exists w1 task,
    ResultHandler.start_listening 3
      (world0 [equipment_row 3 ASTM BIDIRECTIONAL])
    = (Ok (), w1)
    /\ active_listeners w1 !! 3%Z = Some task
    /\ ResultHandler.start_listening 3 w1
       = (Ok (),
          emit [Log WARNING "Already listening to equipment 3"] w1).
Proof.
  eexists.
  edestruct (start_listening_twice 3
               (world0 [equipment_row 3 ASTM BIDIRECTIONAL]))
    as (task & Ht & _ & Hs); [reflexivity|].
  exists task. split; [reflexivity|]. split; [exact Ht | exact Hs].
Defined.

(** X11.  [stop_listening] undoes [start_listening]: for an id that was not
    listened to, starting and then stopping gives the table of listeners
    back; stopping an id that is not listened to changes nothing. *)
Theorem stop_listening_undoes_start (id : Z) (w w1 : World) :
  active_listeners w !! id = None ->
  ResultHandler.stop_listening id w = w
  /\ (ResultHandler.start_listening id w = (Ok (), w1) ->
      is_Some (active_listeners w1 !! id)
      /\ active_listeners (ResultHandler.stop_listening id w1)
         = active_listeners w).
Proof.
  intros Hl. split.
  - unfold ResultHandler.stop_listening. by rewrite Hl.
  - unfold ResultHandler.start_listening.
    destruct (ResultHandler.query w id) as [equipment|]; [|discriminate].
    rewrite Hl.
    destruct (ResultProcessorFactory.create_processor _ _ _) as [processor|];
      [|discriminate].
    intros [= <-]. unfold ResultHandler.stop_listening. cbn.
    rewrite lookup_insert_eq. split; [eauto|]. cbn.
    by apply delete_insert_id.
Qed.

Lemma stop_listening_undoes_start_witness :
  let w := world0 [equipment_row 3 ASTM BIDIRECTIONAL] in
  let w1 := (ResultHandler.start_listening 3 w).2 in
  is_Some (active_listeners w1 !! 3%Z)
  /\ active_listeners (ResultHandler.stop_listening 3 w1)
     = active_listeners w.
Proof.
  destruct (stop_listening_undoes_start 3
              (world0 [equipment_row 3 ASTM BIDIRECTIONAL])
              (ResultHandler.start_listening 3
                 (world0 [equipment_row 3 ASTM BIDIRECTIONAL])).2)
    as [_ H]; [reflexivity|].
  apply H. reflexivity.
Defined.

(** ** More on saving and on the listener loop *)

Lemma mapM_Forall {A B} (f : A -> Result B) (P : B -> Prop) l bs :
  (forall a b, f a = Ok b -> P b) ->
  mapM f l = Ok bs -> Forall P bs.
Proof.
  intros Hf. revert bs. induction l as [|a l IH]; intros bs; simpl.
  - intros [= <-]. constructor.
  - destruct (f a) as [b|e] eqn:Hb; simpl; [|discriminate].
    destruct (mapM f l) as [bs'|e]; simpl; [|discriminate].
    intros [= <-]. constructor; eauto.
Qed.

Section Saving.
Variable fhir_process_result : string -> Result Processed.
Variable fromisoformat : string -> Result string.
Variable repr_processed : Processed -> string.
Variable equipment : Equipment.

#[local] Abbreviation save :=
  (ResultHandler.save_results fromisoformat repr_processed).
#[local] Abbreviation step processor :=
  (ResultHandler.turn fhir_process_result fromisoformat repr_processed
     equipment processor).
#[local] Abbreviation run processor :=
  (ResultHandler.listen_for_results fhir_process_result fromisoformat
     repr_processed equipment processor).

(** X12.  [_save_results] stores all the result lines of a message or none:
    either it returns, and exactly one row per result line, each carrying
    the equipment id and the patient id of the message, has been committed
    after what was committed and pending before; or it raises, what was
    committed is untouched and the session has been rolled back. *)
Theorem save_results_all_or_nothing (commit : Result unit)
    (processed : Processed) (w : World) :
  let out := save commit equipment processed w in
  (out.1 = Ok ()
   /\ exists rows,
        committed out.2 = committed w ++ pending w ++ rows
        /\ pending out.2 = []
        /\ length rows = length (results processed)
        /\ Forall (fun r => tr_equipment_id r = eq_id equipment
                            /\ tr_patient_id r = patient_id processed) rows)
  \/ (exists e,
        out.1 = Raise e
        /\ committed out.2 = committed w
        /\ pending out.2 = []).
Proof.
  intros out. subst out. unfold ResultHandler.save_results.
  destruct (mapM _ (results processed)) as [rows|e] eqn:Hrows.
  - destruct commit as [[]|e]; cbn [fst snd].
    + left. split; [done|]. exists rows. split; [done|]. split; [done|].
      split; [by apply mapM_length in Hrows|].
      eapply mapM_Forall; [|exact Hrows].
      intros r row. unfold ResultHandler.make_row.
      destruct (fromisoformat _); simpl; [|discriminate].
      by intros [= <-].
    + right. by exists e.
  - right. by exists e.
Qed.

Lemma save_results_frame commit processed w :
  let out := save commit equipment processed w in
  active_connections out.2 = active_connections w
  /\ active_listeners out.2 = active_listeners w
  /\ committed w `prefix_of` committed out.2
  /\ exists evs, trace out.2 = trace w ++ evs
                 /\ Forall (fun ev => ~ is_transport_write ev) evs.
Proof.
  intros out. subst out. unfold ResultHandler.save_results.
  destruct (mapM _ (results processed)) as [rows|e];
    [destruct commit as [[]|e]|]; cbn;
    (split; [done|]); (split; [done|]);
    (split; [try done; by eexists|]);
    (eexists; split; [reflexivity|]); repeat constructor; simpl; tauto.
Qed.

Lemma send_acknowledgment_no_write processor clk post m :
  Forall (fun ev => ~ is_transport_write ev)
    (ResultHandler.send_acknowledgment processor clk post m).2.
Proof.
  destruct processor as [ct|ct|ct endpoint]; cbn; [constructor..|].
  unfold HL7FHIRResultProcessor.send_acknowledgment.
  case_decide; [constructor|].
  destruct post; repeat constructor; simpl; tauto.
Qed.

Lemma recover_frame e t w :
  let out := ResultHandler.recover equipment e t w in
  active_connections out.2 = active_connections w
  /\ active_listeners out.2 = active_listeners w
  /\ committed out.2 = committed w
  /\ exists evs, trace out.2 = trace w ++ evs
                 /\ Forall (fun ev => ~ is_transport_write ev) evs.
Proof.
  intros out. subst out. unfold ResultHandler.recover.
  destruct (turn_sleep t); cbn; repeat split; try done;
    rewrite <- ?app_assoc; (eexists; split; [reflexivity|]);
    repeat constructor; simpl; tauto.
Qed.

(** What one turn leaves alone. *)
Lemma turn_frame processor t w :
  let out := step processor t w in
  active_connections out.2 = active_connections w
  /\ active_listeners out.2 = active_listeners w
  /\ committed w `prefix_of` committed out.2
  /\ exists evs, trace out.2 = trace w ++ evs
                 /\ Forall (fun ev => ~ is_transport_write ev) evs.
Proof.
  intros out. subst out. unfold ResultHandler.turn.
  assert (Hrec : forall e w0,
             active_connections w0 = active_connections w ->
             active_listeners w0 = active_listeners w ->
             committed w `prefix_of` committed w0 ->
             (exists evs, trace w0 = trace w ++ evs
                          /\ Forall (fun ev => ~ is_transport_write ev) evs) ->
             let out := ResultHandler.recover equipment e t w0 in
             active_connections out.2 = active_connections w
             /\ active_listeners out.2 = active_listeners w
             /\ committed w `prefix_of` committed out.2
             /\ exists evs, trace out.2 = trace w ++ evs
                            /\ Forall (fun ev => ~ is_transport_write ev) evs).
  { intros e w0 Hc Hl Hp (evs0 & Ht0 & Hf0) out.
    destruct (recover_frame e t w0) as (Hc1 & Hl1 & Hm1 & evs1 & Ht1 & Hf1).
    subst out. rewrite Hc1, Hl1, Hm1, Ht1, Ht0.
    repeat split; try done.
    exists (evs0 ++ evs1). rewrite app_assoc. split; [done|].
    by apply Forall_app. }
  assert (Hsame : exists evs, trace w = trace w ++ evs
                    /\ Forall (fun ev => ~ is_transport_write ev) evs)
    by (exists []; by rewrite app_nil_r).
  destruct (turn_receive t) as [[raw|e]|].
  - case_decide.
    + destruct (ResultHandler.polling equipment); [|by repeat split].
      destruct (turn_sleep t); cbn; repeat split; try done;
        (eexists; split; [reflexivity|]); repeat constructor; simpl; tauto.
    + destruct (ResultHandler.process_result _ _ _ _) as [processed|e];
        [|by apply Hrec].
      destruct (save_results_frame (turn_commit t) processed w)
        as (Hc & Hl & Hp & evs & Ht & Hf).
      destruct (save _ _ _ _) as [[[]|e] w1]; cbn [snd] in *;
        [|by apply Hrec; eauto].
      case_decide; cbn [snd]; [|by eauto 10].
      cbn. rewrite Hc, Hl, Ht. repeat split; try done.
      eexists. rewrite <- app_assoc. split; [reflexivity|].
      apply Forall_app. split; [done|]. apply send_acknowledgment_no_write.
  - by apply Hrec.
  - cbn. repeat split; try done.
    eexists; split; [reflexivity|]. repeat constructor; simpl; tauto.
Qed.

(** X13.  Whatever happens during a run of the listener, rows once
    committed stay: what was committed before the run is a prefix of what
    is committed after it. *)
Theorem listener_keeps_committed_rows (processor : ResultProcessor)
    (turns : list Turn) (w : World) :
  committed w `prefix_of` committed (run processor turns w).2.
Proof.
  revert w. induction turns as [|t rest IH]; intros w; [done|].
  cbn [ResultHandler.listen_for_results].
  destruct (turn_frame processor t w) as (_ & _ & Hp & _).
  destruct (step processor t w) as [[] w1]; cbn [snd] in *; [|done].
  etrans; [exact Hp | apply IH].
Qed.

(** X14.  The listener never hands anything to a transport and never
    touches the registry or the table of listeners: over any run, the
    registry and the listeners are as before and the events added hold no
    write to a transport.  The HL7 and ASTM acknowledgements it builds are
    not sent, and a loop that has ended keeps its entry in the table. *)
Theorem listener_writes_nothing (processor : ResultProcessor)
    (turns : list Turn) (w : World) :
  let out := run processor turns w in
  active_connections out.2 = active_connections w
  /\ active_listeners out.2 = active_listeners w
  /\ exists evs, trace out.2 = trace w ++ evs
                 /\ Forall (fun ev => ~ is_transport_write ev) evs.
Proof.
  revert w. induction turns as [|t rest IH]; intros w out; subst out.
  - cbn. repeat split; try done. exists []. by rewrite app_nil_r.
  - cbn [ResultHandler.listen_for_results].
    destruct (turn_frame processor t w) as (Hc & Hl & _ & evs & Ht & Hf).
    destruct (step processor t w) as [[] w1]; cbn [snd] in *.
    + destruct (IH w1) as (Hc1 & Hl1 & evs1 & Ht1 & Hf1).
      rewrite Hc1, Hl1, Ht1, Hc, Hl, Ht. repeat split; try done.
      exists (evs ++ evs1). rewrite app_assoc. split; [done|].
      by apply Forall_app.
    + repeat split; try done. eauto.
Qed.

(** X15.  Only a cancellation ends the listener.  A run in which no await
    is cancelled is still listening at its end, whatever was received and
    whatever failed; a run that has ended holds a turn whose receive or
    sleep was cancelled. *)
Theorem listener_ends_only_when_cancelled (processor : ResultProcessor)
    (turns : list Turn) (w : World) :
  (Forall (fun t => turn_receive t <> Cancelled
                    /\ turn_sleep t <> Cancelled) turns ->
   (run processor turns w).1 = Listening)
  /\ ((run processor turns w).1 = Exited ->
      Exists (fun t => turn_receive t = Cancelled
                       \/ turn_sleep t = Cancelled) turns).
Proof.
  split.
  - apply listen_not_cancelled.
  - revert w. induction turns as [|t rest IH]; intros w; [discriminate|].
    cbn [ResultHandler.listen_for_results].
    destruct (step processor t w) as [[] w1] eqn:Ht; cbn [fst].
    + intros H. apply Exists_cons_tl. by apply (IH w1).
    + intros _. apply Exists_cons_hd.
      destruct (turn_receive t) as [r|] eqn:Hr; [|by left].
      destruct (turn_sleep t) as [[]|] eqn:Hs; [|by right].
      pose proof (turn_not_cancelled fhir_process_result fromisoformat
                    repr_processed equipment processor t w) as Hn.
      rewrite Ht, Hr, Hs in Hn. cbn in Hn.
      discriminate Hn; discriminate.
Qed.

End Saving.

(** ** More on the ASTM codec *)

Section ASTMLoop.
Import ASTMResultProcessor.

Lemma step_spec acc record : step acc record = Ok (after acc [record]).
Proof.
  unfold step, after. destruct record as [|c r].
  - destruct acc. cbn. by rewrite app_nil_r.
  - rewrite decide_False by discriminate. cbn [PyStr.char_at String.get].
    cbn [mbind Result_bind]. unfold PyStr.chr.
    rewrite header_record_spec, patient_record_spec, result_record_spec.
    cbn [mbind Result_bind]. rewrite !filter_cons, !filter_nil.
    cbn [record_type_is].
    destruct (Ascii.eqb_spec c "H") as [->|Hh];
      [rewrite decide_True by done; cbn; by rewrite app_nil_r|].
    rewrite decide_False by congruence.
    destruct (Ascii.eqb_spec c "P") as [->|Hp];
      [rewrite decide_True by done; cbn; by rewrite app_nil_r|].
    rewrite decide_False by congruence.
    destruct (Ascii.eqb_spec c "R") as [->|Hr];
      [rewrite decide_True by done; by cbn|].
    rewrite decide_False by congruence.
    destruct acc. cbn. by rewrite app_nil_r.
Qed.

Lemma after_cons acc record rest :
  after (after acc [record]) rest = after acc (record :: rest).
Proof.
  unfold after. cbn [header patient acc_results].
  rewrite !(filter_cons _ record rest), !filter_cons, !filter_nil.
  f_equal.
  - destruct (decide (record_type_is "H" record)); [|done].
    rewrite !last_cons. by destruct (last (filter _ rest)).
  - destruct (decide (record_type_is "P" record)); [|done].
    rewrite !last_cons. by destruct (last (filter _ rest)).
  - destruct (decide (record_type_is "R" record)); cbn;
      by rewrite <- ?app_assoc, ?app_nil_r.
Qed.

Lemma loop_spec records : forall acc, loop acc records = Ok (after acc records).
Proof.
  induction records as [|record rest IH]; intros acc.
  - destruct acc. unfold after. rewrite !filter_nil. cbn.
    by rewrite app_nil_r.
  - cbn [loop]. rewrite step_spec. cbn [mbind Result_bind].
    by rewrite IH, after_cons.
Qed.

End ASTMLoop.

(** X16.  The ASTM codec keeps one patient and one header per message, the
    last of each: the message id is field 5 of the last [H] record, patient
    id and name are fields 3 and 4 of the last [P] record (empty when there
    is none), and every [R] record of the message gives a result line, in
    order, whichever [P] record it stands under. *)
Theorem astm_last_patient_wins (clk : Clock) (raw_data : string) :
  ASTMResultProcessor.process_result clk raw_data
  = Ok (astm_decoded clk (astm_records raw_data)).
Proof.
  unfold ASTMResultProcessor.process_result.
  change [PyStr.STX; PyStr.ETX; PyStr.CR; PyStr.LF] with astm_framing.
  fold (astm_records raw_data). rewrite loop_spec.
  cbn [mbind Result_bind reraise].
  f_equal. unfold ASTMResultProcessor.finish, astm_decoded, after. cbn.
  f_equal;
    by destruct (last (filter _ (astm_records raw_data))).
Qed.

(** In a message with two patients both results are decoded and the
    message carries the second patient. *)
Lemma two_patients_decoded :
  exists p,
    ASTMResultProcessor.process_result clock0 two_patients = Ok p
    /\ patient_id p = "PT002"
    /\ map test_code (results p) = ["GLU"; "HGB"].
Proof.
  eexists. split; [vm_compute; reflexivity|]. done.
Qed.

Lemma contains_app c s t :
  PyStr.contains c (s +:+ t) = PyStr.contains c s || PyStr.contains c t.
Proof.
  induction s as [|d r IH]; [reflexivity|].
  rewrite append_cons. cbn [PyStr.contains]. by rewrite IH, orb_assoc.
Qed.

Lemma ends_with_any_app chars s t :
  t <> "" -> ends_with_any chars (s +:+ t) = ends_with_any chars t.
Proof.
  intros Ht. induction s as [|c r IH]; [reflexivity|].
  rewrite append_cons. cbn [ends_with_any]. rewrite IH.
  destruct (r +:+ t) eqn:E; [|reflexivity].
  destruct r; [|discriminate E]. by destruct t.
Qed.

Lemma split_prefix sep p r :
  PyStr.contains sep p = false ->
  PyStr.split sep (p +:+ String sep r) = p :: PyStr.split sep r.
Proof.
  induction p as [|c p IH]; intros H.
  - change ("" +:+ ?x) with x. cbn [PyStr.split]. by rewrite Ascii.eqb_refl.
  - rewrite append_cons. cbn [PyStr.split PyStr.contains] in *.
    apply orb_false_elim in H as [Hc Hp]. rewrite Ascii.eqb_sym in Hc.
    by rewrite Hc, (IH Hp).
Qed.

(** X17.  The ASTM acknowledgement does not decode back to the id it was
    built for.  For every message id without a carriage return, decoding
    the acknowledgement gives message id [LAB] and no result line: the
    codec writes the id into field 7 of the header and reads field 5. *)
Theorem astm_ack_decodes_to_LAB (clk : Clock) (m : string) :
  PyStr.contains PyStr.CR m = false ->
  exists ack p,
    ASTMResultProcessor.send_acknowledgment BIDIRECTIONAL_WITH_ACK m
    = RetStr ack
    /\ ASTMResultProcessor.process_result clk ack = Ok p
    /\ message_id p = "LAB"
    /\ results p = []
    /\ (PyStr.contains "|" m = false ->
        field (PyStr.split "|" (PyStr.strip astm_framing ack)) 7 = m).
Proof.
  intros Hm. eexists _, _. split; [reflexivity|].
  set (body := "H|\^&|||LIS|LAB||" +:+ m +:+ "||P|1").
  assert (Hstrip :
    PyStr.strip astm_framing
      (PyStr.chr PyStr.STX +:+ "H|\^&|||LIS|LAB||" +:+ m +:+ "||P|1"
       +:+ PyStr.chr PyStr.CR +:+ PyStr.chr PyStr.ETX +:+ PyStr.chr PyStr.CR
       +:+ PyStr.chr PyStr.LF) = body).
  { transitivity (PyStr.strip astm_framing
                    (astm_frame (body +:+ PyStr.chr PyStr.CR))).
    - f_equal. unfold astm_frame, body. by rewrite !append_assoc.
    - rewrite strip_frame, strip_app by reflexivity.
      apply strip_clean; [reflexivity|]. unfold body.
      rewrite ends_with_any_app by (destruct m; discriminate).
      rewrite ends_with_any_app by discriminate. reflexivity. }
  assert (Hrec : PyStr.split PyStr.CR body = [body]).
  { apply split_without_separator. unfold body.
    by rewrite !contains_app, Hm. }
  assert (Hfields :
             PyStr.split "|" body
             = "H" :: "\^&" :: "" :: "" :: "LIS" :: "LAB" :: ""
               :: PyStr.split "|" (m +:+ "||P|1")).
  { unfold body.
    change ("H|\^&|||LIS|LAB||" +:+ m +:+ "||P|1")
      with ("H" +:+ String "|" ("\^&" +:+ String "|" ("" +:+ String "|"
              ("" +:+ String "|" ("LIS" +:+ String "|" ("LAB" +:+ String "|"
                 ("" +:+ String "|" (m +:+ "||P|1")))))))).
    by rewrite !split_prefix by reflexivity. }
  unfold ASTMResultProcessor.process_result.
  change [PyStr.STX; PyStr.ETX; PyStr.CR; PyStr.LF] with astm_framing.
  rewrite Hstrip, Hrec, loop_spec. cbn [mbind Result_bind reraise].
  split; [reflexivity|].
  unfold ASTMResultProcessor.finish, after.
  rewrite !filter_cons, !filter_nil.
  rewrite decide_True by exact I.
  rewrite decide_False by (intros []).
  cbn [ASTMResultProcessor.header last message_id results
       ASTMResultProcessor.acc_results ASTMResultProcessor.init map app
       header_of ASTMResultProcessor.header_message_id].
  rewrite Hfields. split; [reflexivity|]. split; [reflexivity|].
  intros Hbar.
  change (m +:+ "||P|1") with (m +:+ String "|" "|P|1").
  by rewrite split_prefix.
Qed.

Lemma astm_ack_decodes_to_LAB_witness :
  exists ack p,
    ASTMResultProcessor.send_acknowledgment BIDIRECTIONAL_WITH_ACK "PT002"
    = RetStr ack
    /\ ASTMResultProcessor.process_result clock0 ack = Ok p
    /\ message_id p = "LAB"
    /\ results p = [].
Proof.
  destruct (astm_ack_decodes_to_LAB clock0 "PT002")
    as (ack & p & Ha & Hp & Hm & Hr & _); [reflexivity|].
  exists ack, p. auto.
Defined.

(** ** Requests on a serial line *)

(** X18.  On a serial ASTM transport the query of [request_results] goes
    out framed twice: [_build_request_command] returns it inside
    [\x02...\x03\r\n] and [send_command] of the transport wraps what it is
    given once more. *)
Theorem astm_request_framed_twice (clk : Clock) (answer : string) (id : Z)
    (patient_id : option string) (w : World) (equipment : Equipment)
    (c : Connection) (port baud_rate data_bits parity stop_bits : PyVal) :
  ResultHandler.query w id = Some equipment ->
  eq_communication_type equipment <> UNIDIRECTIONAL ->
  eq_protocol equipment = ASTM ->
  active_connections w !! id = Some c ->
  interface c
  = SerialEquipment port baud_rate (VProtocol ASTM) data_bits parity stop_bits ->
  ResultHandler.request_results clk (Ok answer) id patient_id w
  = (Ok true,
     emit [Written (oid c)
             (astm_frame
                (astm_frame
                   (astm_query_body (ResultHandler.or_empty patient_id))))]
       w).
Proof.
  intros Hq Hc Hp Hl Hi. unfold ResultHandler.request_results.
  rewrite Hq, decide_False by done. rewrite Hp.
  cbn [ResultHandler.build_request_command].
  unfold EquipmentManager.send_command_to_equipment. rewrite Hl.
  unfold EquipmentManager.send_command. rewrite Hi.
  cbn [EquipmentManager.is_protocol EquipmentManager.receive_data].
  rewrite bool_decide_eq_true_2 by done.
  do 4 f_equal. unfold astm_frame, astm_query_body.
  by rewrite !append_assoc.
Qed.

Lemma astm_request_framed_twice_witness :
  let w :=
    (EquipmentManager.connect_equipment always_opens 3
       (config_serial RS232 ASTM)
       (world0 [equipment_row 3 ASTM BIDIRECTIONAL])).2 in
  ResultHandler.request_results clock0 (Ok "") 3 (Some "PT002") w
  = (Ok true,
     emit [Written 0 (astm_frame (astm_frame (astm_query_body "PT002")))] w).
Proof.
  apply (astm_request_framed_twice clock0 "" 3 (Some "PT002") _
           (equipment_row 3 ASTM BIDIRECTIONAL)
           {| oid := 0;
              interface :=
                SerialEquipment (VStr "/dev/ttyUSB0") (VInt 9600)
                  (VProtocol ASTM) (VInt 8) (VStr "N") (VInt 1) |}
           (VStr "/dev/ttyUSB0") (VInt 9600) (VInt 8) (VStr "N") (VInt 1));
    try (vm_compute; reflexivity); discriminate.
Defined.

(** X19.  After [disconnect_equipment] a command for the id is refused:
    [send_command_to_equipment] raises [ValueError('Equipment <id> is not
    connected')] and hands nothing to a transport, whether or not the id
    was connected before. *)
Theorem command_after_disconnect_refused (closes : Result unit)
    (raw : Result string) (id : Z) (command : string) (w : World) :
  let w1 := (EquipmentManager.disconnect_equipment closes id w).2 in
  let out := EquipmentManager.send_command_to_equipment raw id command w1 in
  out.1
  = Raise (ValueError ("Equipment " +:+ show_Z id +:+ " is not connected"))
  /\ exists evs, trace out.2 = trace w1 ++ evs
                 /\ Forall (fun ev => ~ is_transport_write ev) evs.
Proof.
  intros w1 out.
  assert (Hl : active_connections w1 !! id = None).
  { subst w1. unfold EquipmentManager.disconnect_equipment.
    destruct (active_connections w !! id) eqn:E; cbn; [|done].
    apply lookup_delete_eq. }
  subst out. unfold EquipmentManager.send_command_to_equipment.
  rewrite Hl. cbn. split; [done|].
  eexists. split; [reflexivity|]. repeat constructor; simpl; tauto.
Qed.

(** ** The endpoints *)

Lemma connect_equipment_rows opens id cfg w :
  equipment_rows (EquipmentManager.connect_equipment opens id cfg w).2
  = equipment_rows w.
Proof.
  unfold EquipmentManager.connect_equipment.
  destruct (EquipmentManager.make_interface cfg) as [i|e]; [|done].
  by destruct (EquipmentManager.interface_connect opens i) as [[[]|e] evs].
Qed.

Lemma start_listening_rows id w :
  equipment_rows (ResultHandler.start_listening id w).2 = equipment_rows w.
Proof.
  unfold ResultHandler.start_listening.
  destruct (ResultHandler.query w id); [|done].
  destruct (active_listeners w !! id); [done|].
  by destruct (ResultProcessorFactory.create_processor _ _ _).
Qed.

Lemma query_rows w w' id :
  equipment_rows w' = equipment_rows w ->
  ResultHandler.query w' id = ResultHandler.query w id.
Proof. unfold ResultHandler.query. by intros ->. Qed.

Lemma filter_not_in_nil (l : list Task) : filter (fun x => x ∉ []) l = l.
Proof.
  induction l as [|x l IH]; [done|].
  rewrite filter_cons_True by apply not_elem_of_nil. by rewrite IH.
Qed.

(** The transport the connect endpoint builds for a row. *)
Lemma config_interface columns equipment :
  EquipmentManager.make_interface (Api.config columns equipment)
  = Ok (if decide (eq_connection_type equipment = NETWORK)
        then NetworkEquipment (col_ip_address (columns equipment))
               (col_port (columns equipment))
               (VProtocol (eq_protocol equipment))
        else SerialEquipment (col_com_port (columns equipment))
               (col_baud_rate (columns equipment))
               (VProtocol (eq_protocol equipment))
               (col_data_bits (columns equipment))
               (col_parity (columns equipment))
               (col_stop_bits (columns equipment))).
Proof.
  unfold Api.config.
  destruct (eq_connection_type equipment); vm_compute; reflexivity.
Qed.

(** X20.  The connect endpoint decides the transport by the row's
    connection type alone and passes the columns on as they are: a row that
    is not [NETWORK] (an [ETHERNET] or [WIFI] one as much as an [RS232]
    one) is opened as a serial port on [com_port], with [data_bits],
    [parity] and [stop_bits] taken from the row even when they are NULL, so
    that the defaults 8, [N], 1 never apply.  The answer is 404 for an id
    without a row, 500 with the text of the exception when the transport
    does not open, and otherwise the success message with the interface
    registered. *)
Theorem connect_endpoint_outcome (columns : Equipment -> Wiring)
    (opens : EquipmentInterface -> Result unit) (id : Z) (sv : Server) :
  let out := Api.connect_equipment columns opens id sv in
  match ResultHandler.query (shared sv) id with
  | None => out = (Raise (HTTPException 404 "Equipment not found"), sv)
  | Some equipment =>
      let i :=
        if decide (eq_connection_type equipment = NETWORK)
        then NetworkEquipment (col_ip_address (columns equipment))
               (col_port (columns equipment))
               (VProtocol (eq_protocol equipment))
        else SerialEquipment (col_com_port (columns equipment))
               (col_baud_rate (columns equipment))
               (VProtocol (eq_protocol equipment))
               (col_data_bits (columns equipment))
               (col_parity (columns equipment))
               (col_stop_bits (columns equipment)) in
      match opens i with
      | Ok _ =>
          out.1
          = Ok ("Successfully connected to equipment " +:+ show_Z id
                +:+ " and started result listening")
          /\ active_connections (shared out.2) !! id
             = Some {| oid := allocated (shared sv); interface := i |}
      | Raise e =>
          out.1 = Raise (HTTPException 500 (str_exn e))
          /\ active_connections (shared out.2)
             = active_connections (shared sv)
          /\ tasks out.2 = tasks sv
      end
  end.
Proof.
  intros out. subst out. unfold Api.connect_equipment.
  destruct (ResultHandler.query (shared sv) id) as [equipment|]; [|done].
  cbv zeta. pose proof (config_interface columns equipment) as Hi.
  set (i := if decide (eq_connection_type equipment = NETWORK) then _ else _)
    in *.
  destruct (opens i) as [[]|e] eqn:Ho.
  - destruct (connect_equipment_opened opens id (Api.config columns equipment)
                (shared sv) i Hi Ho) as (w1 & -> & Hreg & _).
    cbn [fst snd shared]. split; [done|].
    assert (Hkeep : forall w,
               active_connections
                 (ResultHandler.start_listening id w).2
               = active_connections w).
    { intros w. unfold ResultHandler.start_listening.
      destruct (ResultHandler.query w id); [|done].
      destruct (active_listeners w !! id); [done|].
      by destruct (ResultProcessorFactory.create_processor _ _ _). }
    unfold Api.drop_handler. cbn [active_connections set_listeners].
    rewrite Hkeep. cbn. rewrite Hreg. apply lookup_insert_eq.
  - destruct (connect_equipment_failed opens id (Api.config columns equipment)
                (shared sv)) as [_ H].
    destruct (H i e Hi Ho) as (w1 & -> & Hreg). done.
Qed.

Lemma disconnect_equipment_frame closes id w :
  exists w1,
    EquipmentManager.disconnect_equipment closes id w = (Ok (), w1)
    /\ active_connections w1 !! id = None.
Proof.
  unfold EquipmentManager.disconnect_equipment.
  destruct (active_connections w !! id) eqn:E; eexists; (split; [done|]).
  - cbn. apply lookup_delete_eq.
  - done.
Qed.

(** X21.  The disconnect endpoint always answers with the success message,
    for an id that is not connected or has no row as well, and it never
    stops a listener: [stop_listening] runs on a handler built for this
    request, whose table is empty, so the tasks that were running are all
    still running while the registry entry is gone. *)
Theorem disconnect_endpoint_stops_no_listener (closes : Result unit) (id : Z)
    (sv : Server) :
  let out := Api.disconnect_equipment closes id sv in
  out.1 = Ok ("Successfully disconnected equipment " +:+ show_Z id)
  /\ tasks out.2 = tasks sv
  /\ active_connections (shared out.2) !! id = None.
Proof.
  intros out. subst out. unfold Api.disconnect_equipment.
  destruct (disconnect_equipment_frame closes id (shared sv))
    as (w1 & -> & Hl).
  cbn [fst snd tasks shared]. split; [done|]. split.
  - unfold Api.held, Api.new_handler. cbn. rewrite lookup_empty.
    apply filter_not_in_nil.
  - unfold Api.drop_handler, Api.new_handler, ResultHandler.stop_listening.
    cbn. by rewrite lookup_empty.
Qed.

Lemma connect_endpoint_spawns columns opens id sv equipment processor :
  ResultHandler.query (shared sv) id = Some equipment ->
  ResultProcessorFactory.create_processor (eq_protocol equipment)
    (eq_communication_type equipment) (eq_result_endpoint equipment)
  = Ok processor ->
  (forall i, opens i = Ok ()) ->
  let sv1 := (Api.connect_equipment columns opens id sv).2 in
  tasks sv1
  = tasks sv ++ [{| task_equipment := equipment;
                    task_processor := processor |}]
  /\ ResultHandler.query (shared sv1) id = Some equipment.
Proof.
  intros Hq Hp Ho sv1. subst sv1. unfold Api.connect_equipment. rewrite Hq.
  pose proof (connect_equipment_rows opens id (Api.config columns equipment)
                (shared sv)) as Hrows.
  destruct (connect_equipment_opened opens id (Api.config columns equipment)
              (shared sv) _ (config_interface columns equipment) (Ho _))
    as (w1 & Hc & _).
  rewrite Hc in Hrows |- *. cbn [snd] in Hrows. cbn [snd tasks shared].
  assert (Hq1 : ResultHandler.query (Api.new_handler w1) id = Some equipment).
  { rewrite <- Hq. by apply query_rows. }
  split.
  - f_equal. unfold Api.held, ResultHandler.start_listening.
    rewrite Hq1. cbn [Api.new_handler set_listeners active_listeners].
    rewrite lookup_empty, Hp. cbn. by rewrite lookup_insert_eq.
  - rewrite <- Hq. apply query_rows. unfold Api.drop_handler. cbn.
    by rewrite start_listening_rows.
Qed.

(** X22.  Every successful request to the connect endpoint starts one more
    listener, and none is ever stopped: the handler of a request does not
    know the tasks of earlier requests.  Connecting an instrument twice
    leaves two listeners running for it, and a disconnect after that leaves
    them both running. *)
Theorem connect_endpoint_twice_two_listeners (columns : Equipment -> Wiring)
    (opens : EquipmentInterface -> Result unit) (closes : Result unit)
    (id : Z) (sv : Server) (equipment : Equipment)
    (processor : ResultProcessor) :
  ResultHandler.query (shared sv) id = Some equipment ->
  ResultProcessorFactory.create_processor (eq_protocol equipment)
    (eq_communication_type equipment) (eq_result_endpoint equipment)
  = Ok processor ->
  (forall i, opens i = Ok ()) ->
  let task := {| task_equipment := equipment; task_processor := processor |} in
  let sv1 := (Api.connect_equipment columns opens id sv).2 in
  let sv2 := (Api.connect_equipment columns opens id sv1).2 in
  let sv3 := (Api.disconnect_equipment closes id sv2).2 in
  tasks sv1 = tasks sv ++ [task]
  /\ tasks sv2 = tasks sv ++ [task; task]
  /\ tasks sv3 = tasks sv ++ [task; task]
  /\ active_connections (shared sv3) !! id = None.
Proof.
  intros Hq Hp Ho task sv1 sv2 sv3.
  destruct (connect_endpoint_spawns columns opens id sv equipment processor
              Hq Hp Ho) as [Ht1 Hq1].
  fold sv1 in Ht1, Hq1.
  destruct (connect_endpoint_spawns columns opens id sv1 equipment processor
              Hq1 Hp Ho) as [Ht2 _].
  fold sv2 in Ht2. fold task in Ht1, Ht2.
  assert (Ht3 : tasks sv3 = tasks sv2 /\ active_connections (shared sv3) !! id = None).
  { subst sv3. unfold Api.disconnect_equipment.
    destruct (disconnect_equipment_frame closes id (shared sv2))
      as (w1 & -> & Hl).
    cbn [snd tasks shared]. split.
    - unfold Api.held, Api.new_handler. cbn. rewrite lookup_empty.
      apply filter_not_in_nil.
    - unfold Api.drop_handler, Api.new_handler, ResultHandler.stop_listening.
      cbn. by rewrite lookup_empty. }
  destruct Ht3 as [Ht3 Hl3].
  split; [exact Ht1|]. split; [by rewrite Ht2, Ht1, <- app_assoc|].
  split; [by rewrite Ht3, Ht2, Ht1, <- app_assoc | exact Hl3].
Qed.

Lemma connect_endpoint_twice_two_listeners_witness :
  let task := {| task_equipment := ethernet_row;
                 task_processor := ASTMProcessor BIDIRECTIONAL |} in
  let sv1 := (Api.connect_equipment ethernet_wiring always_opens 5 server0).2 in
  let sv2 := (Api.connect_equipment ethernet_wiring always_opens 5 sv1).2 in
  let sv3 := (Api.disconnect_equipment (Ok ()) 5 sv2).2 in
  tasks sv1 = tasks server0 ++ [task]
  /\ tasks sv2 = tasks server0 ++ [task; task]
  /\ tasks sv3 = tasks server0 ++ [task; task]
  /\ active_connections (shared sv3) !! 5%Z = None.
Proof.
  apply (connect_endpoint_twice_two_listeners ethernet_wiring always_opens
           (Ok ()) 5 server0 ethernet_row (ASTMProcessor BIDIRECTIONAL));
    reflexivity.
Defined.

(** The Ethernet instrument of [server0] is opened as a serial port
    without a device. *)
Lemma ethernet_row_opened_as_serial :
  active_connections
    (shared (Api.connect_equipment ethernet_wiring always_opens 5 server0).2)
    !! 5%Z
  = Some {| oid := 0;
            interface := SerialEquipment VNone VNone (VProtocol ASTM) VNone
                           VNone VNone |}.
Proof. vm_compute. reflexivity. Qed.

Lemma listener_ends_only_when_cancelled_witness :
  (ResultHandler.listen_for_results no_fhir keep_timestamp no_audit
     (equipment_row 3 HL7 BIDIRECTIONAL) (HL7Processor BIDIRECTIONAL)
     [delivers "garbage"; delivers ""; delivers scenario_hl7_repeated]
     (world0 [equipment_row 3 HL7 BIDIRECTIONAL])).1
  = Listening.
Proof.
  apply (listener_ends_only_when_cancelled no_fhir keep_timestamp no_audit
           (equipment_row 3 HL7 BIDIRECTIONAL) (HL7Processor BIDIRECTIONAL)).
  repeat constructor; discriminate.
Defined.

(** ** More on the HL7 codec *)

Lemma mapM_Forall2 {A B} (f : A -> Result B) l bs :
  mapM f l = Ok bs -> Forall2 (fun a b => f a = Ok b) l bs.
Proof.
  revert bs. induction l as [|a l IH]; intros bs; simpl.
  - intros [= <-]. constructor.
  - destruct (f a) as [b|e] eqn:Hb; simpl; [|discriminate].
    destruct (mapM f l) as [bs'|e]; simpl; [|discriminate].
    intros [= <-]. constructor; eauto.
Qed.

Lemma obx_result_line obx r :
  HL7ResultProcessor.obx_result obx = Ok r -> obx_line obx r.
Proof.
  unfold HL7ResultProcessor.obx_result, obx_line.
  rewrite !item_str_spec. fold (item_text obx 3 0) (item_text obx 3 1)
    (item_text obx 5 0) (item_text obx 6 0) (item_text obx 7 0)
    (item_text obx 8 0) (item_text obx 11 0).
  destruct (item_text obx 3 0); simpl; [|discriminate].
  destruct (item_text obx 3 1); simpl; [|discriminate].
  destruct (item_text obx 5 0); simpl; [|discriminate].
  destruct (item_text obx 6 0); simpl; [|discriminate].
  destruct (item_text obx 7 0); simpl; [|discriminate].
  destruct (item_text obx 8 0); simpl; [|discriminate].
  destruct (item_text obx 11 0); simpl; [|discriminate].
  intros [= <-]. simpl. repeat split; eauto.
Qed.

(** X23.  When the HL7 codec decodes a payload, the message has at least
    one [OBX] segment and there is exactly one result line per [OBX]
    segment, in the order of the segments; each line takes test code and
    test name from items 0 and 1 of field 3 (the first two repetitions of
    the field), value, units, reference range, flags and status from item 0
    of fields 5, 6, 7, 8 and 11; message id and timestamp are the text of
    fields 10 and 7 of the header segment. *)
Theorem hl7_decoded_lines (raw_data : string) (p : Processed) :
  HL7ResultProcessor.process_result raw_data = Ok p ->
  exists message obxs msh mid mdt,
    Hl7.parse raw_data = Ok message
    /\ Hl7.segments message "OBX" = Ok obxs
    /\ obxs <> []
    /\ Forall2 obx_line obxs (results p)
    /\ Hl7.segment message "MSH" = Ok msh
    /\ Hl7.getitem msh 10 = Ok mid /\ message_id p = Hl7.str mid
    /\ Hl7.getitem msh 7 = Ok mdt /\ message_datetime p = Hl7.str mdt.
Proof.
  unfold HL7ResultProcessor.process_result.
  destruct (Hl7.parse raw_data) as [message|e]; [|discriminate].
  cbn [mbind Result_bind reraise].
  destruct (HL7ResultProcessor.process_message message) as [p'|e] eqn:Hm;
    [|discriminate].
  intros [= ->].
  destruct (process_message_results message p Hm) as (obxs & Hs & Hr & _).
  unfold HL7ResultProcessor.process_message in Hm.
  destruct (Hl7.segment message "PID") as [pid|]; simpl in Hm; [|done].
  destruct (HL7ResultProcessor.item_str pid 3 0); simpl in Hm; [|done].
  destruct (HL7ResultProcessor.item_str pid 5 0); simpl in Hm; [|done].
  rewrite Hs in Hm. simpl in Hm. rewrite Hr in Hm. simpl in Hm.
  destruct (Hl7.segment message "MSH") as [msh|] eqn:Hmsh; simpl in Hm;
    [|done].
  destruct (Hl7.getitem msh 10) as [mid|] eqn:Hmid; simpl in Hm; [|done].
  destruct (Hl7.getitem msh 7) as [mdt|] eqn:Hmdt; simpl in Hm; [|done].
  injection Hm as <-. simpl in Hr |- *.
  exists message, obxs, msh, mid, mdt.
  split; [done|]. split; [done|]. split; [|split; [|done]].
  - intros ->. unfold Hl7.segments in Hs.
    destruct (Hl7.matching "OBX" (Hl7.children message)) as [[|]|];
      discriminate.
  - eapply Forall2_impl; [by apply mapM_Forall2|].
    intros obx r. apply obx_result_line.
Qed.

Lemma hl7_decoded_lines_witness :
  exists p obxs,
    HL7ResultProcessor.process_result scenario_hl7_repeated = Ok p
    /\ obxs <> []
    /\ Forall2 obx_line obxs (results p)
    /\ map test_name (results p) = [Some "Glucose"].
Proof.
  destruct (hl7_decoded_lines scenario_hl7_repeated
              {| message_id := "MSG1";
                 message_datetime := "2025-01-01T12:00:00";
                 patient_id := "PT001"; patient_name := "Doe^John";
                 results := [ {| test_code := "GLU";
                                 test_name := Some "Glucose";
                                 value := "95"; units := "mg/dL";
                                 reference_range := "70-110";
                                 flags := Some "N"; status := "F" |} ] |})
    as (message & obxs & _ & _ & _ & _ & _ & Hne & Hl & _);
    [vm_compute; reflexivity|].
  eexists _, obxs. split; [vm_compute; reflexivity|].
  split; [exact Hne|]. split; [exact Hl | reflexivity].
Defined.
